(** * OllamaRemoteAPI: a shallow embedding of the REST facade

    The development follows the layout of the repository:
    - [utils]    embeds [src/utils.py] (envelopes, model-name validation,
                 size formatting, the JSON-payload decorator);
    - [settings] embeds [config/settings.py] (the configuration snapshot and
                 the parsing of the IP allow-list);
    - [api]      embeds [src/api.py] (the admission middleware with its
                 rate-limit store, the route handlers and the error handlers).

    Conventions of the embedding.
    - A Python [str] is a [string]; its characters are code points below 256.
    - A Python [int] is a [Z].  A Python [float] is the rational it denotes
      (a [Q]); infinities and NaN are not represented.  Subtraction of two
      clock readings and division by 1024 are exact on the floats the program
      meets (readings of one clock, values at least 1024), so they are the
      rational operations.
    - A Python [dict] with string keys is an association list read from the
      front; [None] is [JNull].
    - [time.time()] is an input of the function that reads the clock.
    - Logging has no influence on any result and is left out. *)

From Stdlib Require Import ZArith QArith Lqa DecimalString Ascii String.
From stdpp Require Import gmap strings list.

Set Warnings "-register-all".

Local Open Scope Z_scope.

(** ** Python values *)

Module py.

(** Exceptions that the code can meet, with the text that [str(e)] gives. *)
Inductive exn :=
| AttributeError (msg : string)
| TypeError (msg : string)
| KeyError (key : string)
| OverflowError (msg : string)
| BadRequest                       (* werkzeug: the body is not valid JSON *)
| ResponseError (msg : string)     (* ollama.ResponseError *)
| CalledProcessError (msg : string)
| TimeoutExpired (msg : string)
| Exception (msg : string).        (* any other exception *)

Definition str_exn (e : exn) : string :=
  match e with
  | AttributeError m | TypeError m | OverflowError m | ResponseError m
  | CalledProcessError m | TimeoutExpired m | Exception m => m
  | KeyError k => "'" +:+ k +:+ "'"
  | BadRequest => "400 Bad Request"
  end.

(** A computation that returns or raises. *)
Inductive result (A : Type) :=
| Ok (a : A)
| Raise (e : exn).
Arguments Ok {A} a.
Arguments Raise {A} e.

Definition bind {A B} (r : result A) (k : A -> result B) : result B :=
  match r with
  | Ok a => k a
  | Raise e => Raise e
  end.

(** JSON values as [json.loads] produces them and [jsonify] consumes them. *)
Inductive json :=
| JNull
| JBool (b : bool)
| JInt (n : Z)
| JFloat (q : Q)
| JStr (s : string)
| JList (l : list json)
| JObj (o : list (string * json)).

(** Truth value of a JSON value ([not x] is its negation). *)
Definition truthy (v : json) : bool :=
  match v with
  | JNull => false
  | JBool b => b
  | JInt n => negb (n =? 0)
  | JFloat q => negb (Qeq_bool q 0)
  | JStr s => negb (String.eqb s EmptyString)
  | JList l => match l with [] => false | _ => true end
  | JObj o => match o with [] => false | _ => true end
  end.

(** [d.get(k)] and [d.get(k, default)] on a dict. *)
Fixpoint dict_lookup (d : list (string * json)) (k : string) : option json :=
  match d with
  | [] => None
  | (k', v) :: d' => if String.eqb k' k then Some v else dict_lookup d' k
  end.

Definition dict_get (d : list (string * json)) (k : string) (default : json) : json :=
  match dict_lookup d k with
  | Some v => v
  | None => default
  end.

(** [{**d, k: v}]: the binding of [k] is replaced where it stands, or added
    at the end. *)
Fixpoint dict_set (d : list (string * json)) (k : string) (v : json)
  : list (string * json) :=
  match d with
  | [] => [(k, v)]
  | (k', v') :: d' =>
      if String.eqb k' k then (k', v) :: d' else (k', v') :: dict_set d' k v
  end.

(** *** Strings *)

(** [c.isspace()] for a code point below 256: TAB to CR, FS to US, the
    space, NEL and the no-break space. *)
Definition is_space (c : ascii) : bool :=
  let n := N_of_ascii c in
  ((9 <=? n) && (n <=? 13) || (28 <=? n) && (n <=? 32)
   || (n =? 133) || (n =? 160))%N.

Fixpoint lstrip (s : string) : string :=
  match s with
  | EmptyString => EmptyString
  | String c s' => if is_space c then lstrip s' else s
  end.

Fixpoint rstrip (s : string) : string :=
  match s with
  | EmptyString => EmptyString
  | String c s' =>
      match rstrip s' with
      | EmptyString => if is_space c then EmptyString else String c EmptyString
      | r => String c r
      end
  end.

(** [s.strip()] *)
Definition strip (s : string) : string := rstrip (lstrip s).

(** [s.split(sep)] for a separator of one character. *)
Fixpoint split (sep : ascii) (s : string) : list string :=
  match s with
  | EmptyString => [EmptyString]
  | String c s' =>
      if Ascii.eqb c sep then EmptyString :: split sep s'
      else match split sep s' with
           | h :: t => String c h :: t
           | [] => [String c EmptyString]
           end
  end.

(** [s.split()]: the maximal runs of characters that are not whitespace.
    [cur] is the run being read, in reverse. *)
Fixpoint split_ws_from (cur : list ascii) (s : string) : list string :=
  let flush (rest : list string) :=
    match cur with
    | [] => rest
    | _ => string_of_list_ascii (rev cur) :: rest
    end in
  match s with
  | EmptyString => flush []
  | String c s' =>
      if is_space c then flush (split_ws_from [] s')
      else split_ws_from (c :: cur) s'
  end.

Definition split_ws (s : string) : list string := split_ws_from [] s.

(** [sep.join(parts)] *)
Fixpoint join (sep : string) (parts : list string) : string :=
  match parts with
  | [] => EmptyString
  | [p] => p
  | p :: ps => p +:+ sep +:+ join sep ps
  end.

(** [needle in hay] on strings. *)
Fixpoint contains (needle hay : string) : bool :=
  String.prefix needle hay
  || match hay with
     | EmptyString => false
     | String _ hay' => contains needle hay'
     end.

(** *** Numbers *)

(** A number is an [int] or a [float]. *)
Inductive num :=
| PyInt (n : Z)
| PyFloat (q : Q).

(** Decimal digits of a natural number. *)
Definition digits (n : Z) : string :=
  NilZero.string_of_uint (N.to_uint (Z.to_N n)).

(** The integer nearest to [a / b] for [0 < b], ties to the even one. *)
Definition round_half_even (a b : Z) : Z :=
  let q := a / b in
  let r := a mod b in
  if 2 * r <? b then q
  else if b <? 2 * r then q + 1
  else if Z.even q then q else q + 1.

(** [float(n)]: the nearest binary64 number, ties to even; it raises once
    the result leaves the range of binary64. *)
Definition float_of_int (n : Z) : result Q :=
  let a := Z.abs n in
  if a <? 2 ^ 53 then Ok (inject_Z n)
  else
    let e := Z.log2 a - 52 in
    let m := round_half_even a (2 ^ e) * 2 ^ e in
    if m <? 2 ^ 1024 then Ok (inject_Z (Z.sgn n * m))
    else Raise (OverflowError "int too large to convert to float").

Definition to_float (x : num) : result Q :=
  match x with
  | PyInt n => float_of_int n
  | PyFloat q => Ok q
  end.

(** [f"{v:.1f}"] for a float [v]: the decimal with one fractional digit
    nearest to [v], ties to even. *)
Definition format_1f (v : Q) : string :=
  let r := round_half_even (Z.abs (Qnum v) * 10) (Zpos (Qden v)) in
  (if Qnum v <? 0 then "-" else EmptyString)
  +:+ digits (r / 10) +:+ "." +:+ digits (r mod 10).

(** [x == 0] and [x >= 1024] *)
Definition is_zero (x : num) : bool :=
  match x with
  | PyInt n => n =? 0
  | PyFloat q => Qeq_bool q 0
  end.

Definition ge_1024 (x : num) : bool :=
  match x with
  | PyInt n => 1024 <=? n
  | PyFloat q => Qle_bool 1024 q
  end.

(** [str(n)] for an [int]. *)
Definition str_int (n : Z) : string :=
  if n <? 0 then "-" +:+ digits (- n) else digits n.

(** The name of the type of a JSON value, as error messages print it. *)
Definition type_name (v : json) : string :=
  match v with
  | JNull => "NoneType"
  | JBool _ => "bool"
  | JInt _ => "int"
  | JFloat _ => "float"
  | JStr _ => "str"
  | JList _ => "list"
  | JObj _ => "dict"
  end.

(** The dict on which [v.get(...)] works; other values have no [get]. *)
Definition as_dict (v : json) : result (list (string * json)) :=
  match v with
  | JObj o => Ok o
  | _ => Raise (AttributeError
                  ("'" +:+ type_name v +:+ "' object has no attribute 'get'"))
  end.

(** The mapping that [{**v}] unpacks. *)
Definition as_mapping (v : json) : result (list (string * json)) :=
  match v with
  | JObj o => Ok o
  | _ => Raise (TypeError ("'" +:+ type_name v +:+ "' object is not a mapping"))
  end.

(** The elements that [for x in v] visits. *)
Definition iterate (v : json) : result (list json) :=
  match v with
  | JList l => Ok l
  | JObj o => Ok (map (fun kv => JStr (fst kv)) o)
  | JStr s => Ok (map (fun c => JStr (String c EmptyString)) (list_ascii_of_string s))
  | _ => Raise (TypeError ("'" +:+ type_name v +:+ "' object is not iterable"))
  end.

(** The number that a JSON value is; comparing any other value with 1024
    raises. *)
Definition as_num (v : json) : result num :=
  match v with
  | JInt n => Ok (PyInt n)
  | JBool b => Ok (PyInt (Z.b2z b))
  | JFloat q => Ok (PyFloat q)
  | _ => Raise (TypeError
                  ("'>=' not supported between instances of '" +:+ type_name v
                   +:+ "' and 'int'"))
  end.

End py.
Export py.


(** ** HTTP messages *)

Module http.

(** What [request.is_json] and [request.get_json()] see of the body. *)
Inductive payload :=
| NotJson                  (* the content type is not a JSON one *)
| Malformed                (* a JSON content type, a body that does not parse *)
| Parsed (data : json).

(** The parts of a request that the code reads. *)
Record request := Request {
  path : string;
  remote_addr : option string;
  header_x_api_key : option string;   (* request.headers.get('X-API-Key') *)
  arg_api_key : option string;        (* request.args.get('api_key') *)
  body : payload
}.

Definition is_json (r : request) : bool :=
  match body r with
  | NotJson => false
  | _ => true
  end.

(** [request.get_json()]; the framework answers a body that does not parse
    with [BadRequest]. *)
Definition get_json (r : request) : result json :=
  match body r with
  | Parsed data => Ok data
  | Malformed => Raise BadRequest
  | NotJson => Raise (Exception "415 Unsupported Media Type")
  end.

(** [jsonify(content), code] *)
Record response := Response {
  content : json;
  status_code : Z
}.

(** Calls of the Model Engine client. *)
Inductive engine_call :=
| ollama_generate (model : string) (prompt stream : json)
                  (options : list (string * json))
| ollama_chat (model : string) (messages : list json) (stream : json)
              (options : list (string * json))
| ollama_list
| ollama_pull (model : string) (timeout : Z).

(** What such a call returns: a value, or a generator of chunks. *)
Inductive engine_value :=
| Value (v : json)
| Generator.

(** What a view function does: it answers, it lets an exception escape, or
    it makes one call (of the engine client, or [subprocess.run] with a
    command line and a timeout in seconds) and answers from the outcome. *)
Inductive action :=
| Reply (r : response)
| Escapes (e : exn)
| CallEngine (c : engine_call) (k : result engine_value -> response)
| RunProcess (argv : list string) (timeout : Z) (k : result string -> response).

End http.
Export http.

(** ** src/utils.py *)

Module utils.

(** [field in data]: a key of a dict, an element of a list, a substring of a
    string; other values are not containers. *)
Definition py_in (field : string) (data : json) : result bool :=
  match data with
  | JObj o => Ok (match dict_lookup o field with Some _ => true | None => false end)
  | JList l =>
      Ok (existsb (fun x => match x with
                            | JStr s => String.eqb s field
                            | _ => false
                            end) l)
  | JStr s => Ok (contains field s)
  | JNull => Raise (TypeError "argument of type 'NoneType' is not iterable")
  | JBool _ => Raise (TypeError "argument of type 'bool' is not iterable")
  | JInt _ => Raise (TypeError "argument of type 'int' is not iterable")
  | JFloat _ => Raise (TypeError "argument of type 'float' is not iterable")
  end.

(** [[field for field in required_fields if field not in data]]: the first
    test that raises ends the comprehension. *)
Fixpoint missing_fields (required_fields : list string) (data : json)
  : result (list string) :=
  match required_fields with
  | [] => Ok []
  | field :: rest =>
      bind (py_in field data) (fun present =>
      bind (missing_fields rest data) (fun missing =>
      Ok (if present then missing else field :: missing)))
  end.

(** The decorator [validate_json_payload(required_fields)] around [func]. *)
Definition validate_json_payload (required_fields : list string)
    (func : request -> action) (request : request) : action :=
  if negb (is_json request) then
    Reply (Response
             (JObj [("error", JStr "Content-Type deve essere application/json")])
             400)
  else
    match get_json request with
    | Raise e => Escapes e
    | Ok data =>
        if negb (truthy data) then
          Reply (Response
                   (JObj [("error", JStr "Payload JSON mancante o non valido")])
                   400)
        else
          match missing_fields required_fields data with
          | Raise e => Escapes e
          | Ok [] => func request
          | Ok missing =>
              Reply (Response
                       (JObj [("error",
                               JStr ("Campi mancanti: " +:+ join ", " missing))])
                       400)
          end
    end.

(** [log_request_info] logs and hands the result, or the exception, on. *)
Definition log_request_info (func : request -> action) : request -> action :=
  func.

(** [timestamp] is the clock reading [time.time()] of the call. *)
Definition create_success_response (data : json) (message : string)
    (timestamp : Q) : json :=
  JObj [("status", JStr "success");
        ("message", JStr message);
        ("data", data);
        ("timestamp", JFloat timestamp)].

Definition create_error_response (error code : string) (timestamp : Q) : json :=
  JObj [("status", JStr "error");
        ("error", JStr error);
        ("error_code", JStr code);
        ("timestamp", JFloat timestamp)].

Definition dangerous_chars : list string :=
  ["/"; "\"; ".."; "<"; ">"; "|"; "&"; ";"].

Definition validate_model_name (model_name : json) : bool :=
  if negb (truthy model_name)
     || negb (match model_name with JStr _ => true | _ => false end)
  then false
  else
    match model_name with
    | JStr s =>
        (0 <? Z.of_nat (String.length (strip s)))
        && negb (existsb (fun char => contains char s) dangerous_chars)
    | _ => false
    end.

Definition size_names : list string := ["B"; "KB"; "MB"; "GB"; "TB"].

(** The loop of [format_file_size].  [remaining] is
    [len(size_names) - 1 - size_index], so the test
    [size_index < len(size_names) - 1] says that it is positive.  The
    division turns an [int] into a [float] first. *)
Fixpoint scale (remaining : nat) (size_bytes : num) (size_index : nat)
  : result (num * nat) :=
  match remaining with
  | O => Ok (size_bytes, size_index)
  | S remaining' =>
      if ge_1024 size_bytes then
        bind (to_float size_bytes) (fun v =>
        scale remaining' (PyFloat (v / 1024)) (S size_index))
      else Ok (size_bytes, size_index)
  end.

(** The argument is a number; the caller turns the JSON value into one. *)
Definition format_file_size (size_bytes : num) : result string :=
  if is_zero size_bytes then Ok "0 B"
  else
    bind (scale (length size_names - 1) size_bytes 0) (fun '(v, size_index) =>
    bind (to_float v) (fun x =>
    match size_names !! size_index with
    | Some name => Ok (format_1f x +:+ " " +:+ name)
    | None => Raise (Exception "list index out of range")
    end)).

End utils.

(** ** config/settings.py *)

Module settings.

Record Config := {
  PORT : Z;
  DEBUG : bool;
  OLLAMA_BASE_URL : string;
  OLLAMA_TIMEOUT : Z;
  LOG_LEVEL : string;
  CORS_ORIGINS : string;
  API_KEY : option string;
  ALLOWED_IPS : option string;
  RATE_LIMIT_ENABLED : bool;
  RATE_LIMIT_PER_MINUTE : Z
}.

(** Truth value of an optional string: set and not empty. *)
Definition is_set (o : option string) : bool :=
  match o with
  | Some s => negb (String.eqb s EmptyString)
  | None => false
  end.

Definition get_allowed_ips_list (cls : Config) : list string :=
  match ALLOWED_IPS cls with
  | Some ips => if is_set (Some ips) then map strip (split "," ips) else []
  | None => []
  end.

End settings.


(** ** src/api.py *)

Module api.
Import utils settings.

(** *** The admission middleware *)

(** [current_time - t > 60] *)
Definition expired (current_time t : Q) : bool :=
  negb (Qle_bool (current_time - t) 60).

(** [while request_times and current_time - request_times[0] > 60:
       request_times.popleft()] *)
Fixpoint evict (current_time : Q) (request_times : list Q) : list Q :=
  match request_times with
  | [] => []
  | t :: rest =>
      if expired current_time t then evict current_time rest else request_times
  end.

(** [request.headers.get('X-API-Key') or request.args.get('api_key')] *)
Definition provided_key (request : request) : option string :=
  if is_set (header_x_api_key request) then header_x_api_key request
  else arg_api_key request.

(** The middleware from the API-key check on. *)
Definition api_key_check (config : Config) (request : request) (timestamp : Q)
  : option response :=
  if is_set (API_KEY config) then
    if negb (bool_decide (provided_key request = API_KEY config)) then
      Some (Response
              (create_error_response "API key mancante o non valida"
                 "INVALID_API_KEY" timestamp)
              401)
    else None
  else None.

(** The middleware from the allow-list check on. *)
Definition allowed_ip_check (config : Config) (request : request) (timestamp : Q)
  : option response :=
  let allowed_ips := get_allowed_ips_list config in
  if match allowed_ips with [] => false | _ => true end
     && negb (match remote_addr request with
              | Some ip => bool_decide (ip ∈ allowed_ips)
              | None => false
              end)
  then
    Some (Response
            (create_error_response "Accesso negato: IP non autorizzato"
               "UNAUTHORIZED_IP" timestamp)
            403)
  else api_key_check config request timestamp.

(** [security_middleware] on the store [rate_limit_storage], a
    [defaultdict] of deques keyed by the client address.  It returns the
    store it leaves and its answer: [None] lets the request through to its
    view.  [current_time] is the clock reading of the rate limiter and
    [timestamp] the one of the error envelope. *)
Definition security_middleware (config : Config)
    (rate_limit_storage : gmap (option string) (list Q)) (request : request)
    (current_time timestamp : Q)
  : gmap (option string) (list Q) * option response :=
  if String.eqb (path request) "/health" then (rate_limit_storage, None)
  else if RATE_LIMIT_ENABLED config then
    let client_ip := remote_addr request in
    let request_times :=
      evict current_time (default [] (rate_limit_storage !! client_ip)) in
    if RATE_LIMIT_PER_MINUTE config <=? Z.of_nat (length request_times) then
      (<[client_ip := request_times]> rate_limit_storage,
       Some (Response
               (create_error_response
                  ("Rate limit superato: massimo "
                   +:+ str_int (RATE_LIMIT_PER_MINUTE config)
                   +:+ " richieste per minuto")
                  "RATE_LIMIT_EXCEEDED" timestamp)
               429))
    else
      (<[client_ip := request_times ++ [current_time]]> rate_limit_storage,
       allowed_ip_check config request timestamp)
  else (rate_limit_storage, allowed_ip_check config request timestamp).

(** *** The views *)

(** [local_ip] is what [get_local_ip()] returns and [ollama_status] what
    [health_check_ollama(config.OLLAMA_BASE_URL)] returns. *)
Definition health_check_body (config : Config) (local_ip : string)
    (ollama_status : bool) (_ : request) : action :=
  let url := "http://" +:+ local_ip +:+ ":" +:+ str_int (PORT config) in
  Reply (Response
    (JObj [
       ("status", JStr "ok");
       ("message", JStr "API Ollama funzionante");
       ("version", JStr "1.0.0");
       ("local_ip", JStr local_ip);
       ("server_url", JStr url);
       ("ollama_status", JStr (if ollama_status then "online" else "offline"));
       ("ollama_url", JStr (OLLAMA_BASE_URL config));
       ("configuration", JObj [
          ("debug", JBool (DEBUG config));
          ("api_key_required", JBool (is_set (API_KEY config)));
          ("ip_filtering",
           JBool (match get_allowed_ips_list config with [] => false | _ => true end));
          ("rate_limiting", JObj [
             ("enabled", JBool (RATE_LIMIT_ENABLED config));
             ("requests_per_minute",
              if RATE_LIMIT_ENABLED config
              then JInt (RATE_LIMIT_PER_MINUTE config) else JNull)]);
          ("cors_origins", JStr (CORS_ORIGINS config));
          ("log_level", JStr (LOG_LEVEL config))]);
       ("endpoints", JObj [
          ("health", JStr ("GET " +:+ url +:+ "/health"));
          ("generate", JStr ("POST " +:+ url +:+ "/generate"));
          ("chat", JStr ("POST " +:+ url +:+ "/chat"));
          ("list", JStr ("GET " +:+ url +:+ "/list"));
          ("ps", JStr ("GET " +:+ url +:+ "/ps"));
          ("stop", JStr ("POST " +:+ url +:+ "/stop"));
          ("pull", JStr ("POST " +:+ url +:+ "/pull"))])])
    200).

Definition health_check (config : Config) (local_ip : string)
    (ollama_status : bool) : request -> action :=
  log_request_info (health_check_body config local_ip ollama_status).

(** The answer for an invalid model name, shared by four views. *)
Definition invalid_model_name (timestamp : Q) : response :=
  Response
    (create_error_response "Nome del modello non valido" "INVALID_MODEL_NAME"
       timestamp)
    400.

Definition error_500 (error code : string) (timestamp : Q) : response :=
  Response (create_error_response error code timestamp) 500.

Definition success_200 (data : json) (message : string) (timestamp : Q)
  : response :=
  Response (create_success_response data message timestamp) 200.

(** [response[key]] on what an engine call returned. *)
Definition subscript (response : engine_value) (key : string)
  : result (list (string * json) * json) :=
  match response with
  | Value (JObj o) =>
      match dict_lookup o key with
      | Some v => Ok (o, v)
      | None => Raise (KeyError key)
      end
  | Value (JList _) =>
      Raise (TypeError "list indices must be integers or slices, not str")
  | Value (JStr _) =>
      Raise (TypeError "string indices must be integers, not 'str'")
  | Value v =>
      Raise (TypeError ("'" +:+ type_name v +:+ "' object is not subscriptable"))
  | Generator => Raise (TypeError "'generator' object is not subscriptable")
  end.

(** The counters that the generate and chat views copy from the reply. *)
Definition counters (response : list (string * json)) : list (string * json) :=
  [("total_duration", dict_get response "total_duration" JNull);
   ("load_duration", dict_get response "load_duration" JNull);
   ("prompt_eval_count", dict_get response "prompt_eval_count" JNull);
   ("prompt_eval_duration", dict_get response "prompt_eval_duration" JNull);
   ("eval_count", dict_get response "eval_count" JNull);
   ("eval_duration", dict_get response "eval_duration" JNull)].

(** The [except] clauses of the generate and chat views. *)
Definition engine_failure (what : string) (timestamp : Q) (e : exn) : response :=
  match e with
  | ResponseError _ =>
      error_500 ("Errore del modello Ollama: " +:+ str_exn e) "OLLAMA_ERROR"
        timestamp
  | _ =>
      error_500 ("Errore interno durante " +:+ what +:+ ": " +:+ str_exn e)
        "INTERNAL_ERROR" timestamp
  end.

(** A [try] block that answers: an exception before the call becomes the
    answer of the [except] clauses. *)
Definition try_except (body : result action) (handler : exn -> response)
  : action :=
  match body with
  | Ok a => a
  | Raise e => Reply (handler e)
  end.

(** [validate_model_name] accepts strings only, so the code after the test
    reads the model as the string that it is. *)
Definition generate_response_body (config : Config) (timestamp : Q)
    (request : request) : action :=
  let failure := engine_failure "la generazione" timestamp in
  try_except
    (bind (get_json request) (fun data =>
     bind (as_dict data) (fun data =>
     let model := dict_get data "model" JNull in
     let prompt := dict_get data "prompt" JNull in
     let stream := dict_get data "stream" (JBool false) in
     let options := dict_get data "options" (JObj []) in
     match validate_model_name model, model with
     | true, JStr name =>
         bind (as_mapping options) (fun options =>
         Ok (CallEngine
               (ollama_generate name prompt stream
                  (dict_set options "timeout" (JInt (OLLAMA_TIMEOUT config))))
               (fun outcome =>
                  match bind outcome (fun response =>
                              subscript response "response") with
                  | Ok (response, text) =>
                      success_200
                        (JObj ([("model", model);
                                ("response", text);
                                ("done", dict_get response "done" (JBool true));
                                ("context", dict_get response "context" JNull)]
                               ++ counters response))
                        "Testo generato con successo" timestamp
                  | Raise e => failure e
                  end)))
     | _, _ => Ok (Reply (invalid_model_name timestamp))
     end)))
    failure.

Definition generate_response (config : Config) (timestamp : Q)
  : request -> action :=
  log_request_info
    (validate_json_payload ["model"; "prompt"]
       (generate_response_body config timestamp)).

Definition chat_body (config : Config) (timestamp : Q) (request : request)
  : action :=
  let failure := engine_failure "la chat" timestamp in
  try_except
    (bind (get_json request) (fun data =>
     bind (as_dict data) (fun data =>
     let model := dict_get data "model" JNull in
     let messages := dict_get data "messages" JNull in
     let stream := dict_get data "stream" (JBool false) in
     let options := dict_get data "options" (JObj []) in
     match validate_model_name model, model with
     | true, JStr name =>
         match messages with
         | JList (m :: ms) =>
             bind (as_mapping options) (fun options =>
             Ok (CallEngine
                   (ollama_chat name (m :: ms) stream
                      (dict_set options "timeout" (JInt (OLLAMA_TIMEOUT config))))
                   (fun outcome =>
                      match bind outcome (fun response =>
                                  subscript response "message") with
                      | Ok (response, message) =>
                          success_200
                            (JObj ([("model", model);
                                    ("message", message);
                                    ("done", dict_get response "done" (JBool true))]
                                   ++ counters response))
                            "Chat completata con successo" timestamp
                      | Raise e => failure e
                      end)))
         | _ =>
             Ok (Reply (Response
                          (create_error_response
                             "I messaggi devono essere una lista non vuota"
                             "INVALID_MESSAGES_FORMAT" timestamp)
                          400))
         end
     | _, _ => Ok (Reply (invalid_model_name timestamp))
     end)))
    failure.

Definition chat (config : Config) (timestamp : Q) : request -> action :=
  log_request_info
    (validate_json_payload ["model"; "messages"] (chat_body config timestamp)).

(** One turn of the loop of [list_models]. *)
Definition enrich (model : json) : result json :=
  bind (as_dict model) (fun model =>
  bind (bind (as_num (dict_get model "size" (JInt 0))) format_file_size)
    (fun size_formatted =>
  Ok (JObj [("name", dict_get model "name" JNull);
            ("model", dict_get model "model" JNull);
            ("size", dict_get model "size" (JInt 0));
            ("size_formatted", JStr size_formatted);
            ("digest", dict_get model "digest" JNull);
            ("modified_at", dict_get model "modified_at" JNull);
            ("details", dict_get model "details" (JObj []))]))).

Fixpoint enrich_all (models : list json) : result (list json) :=
  match models with
  | [] => Ok []
  | model :: rest =>
      bind (enrich model) (fun enriched_model =>
      bind (enrich_all rest) (fun enriched_models =>
      Ok (enriched_model :: enriched_models)))
  end.

Definition list_models_body (timestamp : Q) (_ : request) : action :=
  CallEngine ollama_list (fun outcome =>
    match
      bind outcome (fun models_response =>
      bind (match models_response with
            | Value v => as_dict v
            | Generator =>
                Raise (AttributeError
                         "'generator' object has no attribute 'get'")
            end) (fun models_response =>
      bind (iterate (dict_get models_response "models" (JList []))) enrich_all))
    with
    | Ok enriched_models =>
        success_200
          (JObj [("models", JList enriched_models);
                 ("total_count", JInt (Z.of_nat (length enriched_models)))])
          "Lista modelli ottenuta con successo" timestamp
    | Raise e =>
        error_500
          ("Errore nel recuperare la lista dei modelli: " +:+ str_exn e)
          "LIST_MODELS_ERROR" timestamp
    end).

Definition list_models (timestamp : Q) : request -> action :=
  log_request_info (list_models_body timestamp).

Definition newline : ascii := ascii_of_nat 10.

(** The table that [process_status] reads from the output of [ollama ps]. *)
Definition parse_processes (stdout : string) : list json :=
  let output_lines :=
    if negb (String.eqb (strip stdout) EmptyString)
    then split newline (strip stdout) else [] in
  let rows :=
    if (1 <? length output_lines)%nat then drop 1 output_lines else [] in
  flat_map (fun line =>
    if negb (String.eqb (strip line) EmptyString) then
      let parts := split_ws line in
      if (4 <=? length parts)%nat then
        [JObj [("name", JStr (nth 0 parts EmptyString));
               ("id", JStr (nth 1 parts EmptyString));
               ("size", JStr (nth 2 parts EmptyString));
               ("processor", JStr (nth 3 parts EmptyString));
               ("until",
                JStr (if (4 <? length parts)%nat
                      then join " " (drop 4 parts) else EmptyString))]]
      else []
    else []) rows.

Definition process_status_body (timestamp : Q) (_ : request) : action :=
  RunProcess ["ollama"; "ps"] 10 (fun outcome =>
    match outcome with
    | Ok stdout =>
        let processes := parse_processes stdout in
        success_200
          (JObj [("raw_output", JStr stdout);
                 ("processes", JList processes);
                 ("total_processes", JInt (Z.of_nat (length processes)))])
          "Status processi ottenuto con successo" timestamp
    | Raise (CalledProcessError _ as e) =>
        error_500 ("Errore comando ollama ps: " +:+ str_exn e)
          "OLLAMA_PS_ERROR" timestamp
    | Raise (TimeoutExpired _) =>
        error_500 "Timeout durante l'esecuzione di ollama ps"
          "OLLAMA_PS_TIMEOUT" timestamp
    | Raise e =>
        error_500 ("Errore interno durante ollama ps: " +:+ str_exn e)
          "INTERNAL_ERROR" timestamp
    end).

Definition process_status (timestamp : Q) : request -> action :=
  log_request_info (process_status_body timestamp).

Definition stop_model_body (timestamp : Q) (request : request) : action :=
  let failure e :=
    error_500 ("Errore interno durante l'arresto: " +:+ str_exn e)
      "INTERNAL_ERROR" timestamp in
  try_except
    (bind (get_json request) (fun data =>
     bind (as_dict data) (fun data =>
     let model := dict_get data "model" JNull in
     match validate_model_name model, model with
     | true, JStr name =>
         Ok (RunProcess ["ollama"; "stop"; name] 30 (fun outcome =>
           match outcome with
           | Ok stdout =>
               success_200
                 (JObj [("model", model);
                        ("output", JStr stdout);
                        ("command_success", JBool true)])
                 ("Modello " +:+ name +:+ " fermato con successo") timestamp
           | Raise (CalledProcessError _ as e) =>
               error_500
                 ("Errore nel fermare il modello " +:+ name +:+ ": "
                  +:+ str_exn e)
                 "OLLAMA_STOP_ERROR" timestamp
           | Raise (TimeoutExpired _) =>
               error_500 ("Timeout durante l'arresto del modello " +:+ name)
                 "OLLAMA_STOP_TIMEOUT" timestamp
           | Raise e => failure e
           end))
     | _, _ => Ok (Reply (invalid_model_name timestamp))
     end)))
    failure.

Definition stop_model (timestamp : Q) : request -> action :=
  log_request_info
    (validate_json_payload ["model"] (stop_model_body timestamp)).

Definition pull_model_body (config : Config) (timestamp : Q)
    (request : request) : action :=
  let failure e :=
    error_500 ("Errore interno durante il download: " +:+ str_exn e)
      "INTERNAL_ERROR" timestamp in
  try_except
    (bind (get_json request) (fun data =>
     bind (as_dict data) (fun data =>
     let model := dict_get data "model" JNull in
     match validate_model_name model, model with
     | true, JStr name =>
         Ok (CallEngine (ollama_pull name (OLLAMA_TIMEOUT config))
               (fun outcome =>
                  match outcome with
                  | Ok _ =>
                      success_200
                        (JObj [("model", model);
                               ("download_success", JBool true)])
                        ("Modello " +:+ name +:+ " scaricato con successo")
                        timestamp
                  | Raise (ResponseError _ as e) =>
                      error_500
                        ("Errore nel scaricare il modello " +:+ name +:+ ": "
                         +:+ str_exn e)
                        "OLLAMA_PULL_ERROR" timestamp
                  | Raise e => failure e
                  end))
     | _, _ => Ok (Reply (invalid_model_name timestamp))
     end)))
    failure.

Definition pull_model (config : Config) (timestamp : Q) : request -> action :=
  log_request_info
    (validate_json_payload ["model"] (pull_model_body config timestamp)).

(** *** The routes *)

(** The rules registered with [app.route]. *)
Inductive route :=
| Health | Generate | Chat | List | Ps | Stop | Pull.

Definition rule (r : route) : string :=
  match r with
  | Health => "/health"
  | Generate => "/generate"
  | Chat => "/chat"
  | List => "/list"
  | Ps => "/ps"
  | Stop => "/stop"
  | Pull => "/pull"
  end.

(** The environment of a request: the configuration, what the probes of the
    health view find, and the clock reading of the envelope. *)
Record env := Env {
  config : Config;
  local_ip : string;
  ollama_status : bool;
  timestamp : Q
}.

(** The view function of a rule, decorators included. *)
Definition view (e : env) (r : route) : request -> action :=
  match r with
  | Health => health_check (config e) (local_ip e) (ollama_status e)
  | Generate => generate_response (config e) (timestamp e)
  | Chat => chat (config e) (timestamp e)
  | List => list_models (timestamp e)
  | Ps => process_status (timestamp e)
  | Stop => stop_model (timestamp e)
  | Pull => pull_model (config e) (timestamp e)
  end.

(** The fields that the payload decorator of a rule requires. *)
Definition required_fields (r : route) : list string :=
  match r with
  | Generate => ["model"; "prompt"]
  | Chat => ["model"; "messages"]
  | Stop | Pull => ["model"]
  | Health | List | Ps => []
  end.

(** The rules whose view reads a model name. *)
Definition accepts_model (r : route) : bool :=
  match r with
  | Generate | Chat | Stop | Pull => true
  | Health | List | Ps => false
  end.

(** *** The error handlers *)

Definition not_found (timestamp : Q) : response :=
  Response
    (create_error_response "Endpoint non trovato" "ENDPOINT_NOT_FOUND" timestamp)
    404.

Definition method_not_allowed (timestamp : Q) : response :=
  Response
    (create_error_response "Metodo HTTP non consentito" "METHOD_NOT_ALLOWED"
       timestamp)
    405.

Definition internal_server_error (timestamp : Q) : response :=
  Response
    (create_error_response "Errore interno del server" "INTERNAL_SERVER_ERROR"
       timestamp)
    500.

End api.

(** ** Vocabulary of the properties *)

Module props.
Import utils settings api.

(** The responses that an action can send: its reply, or what it makes of
    some outcome of its call. *)
Definition sends (a : action) (r : response) : Prop :=
  match a with
  | Reply r' => r = r'
  | Escapes _ => False
  | CallEngine _ k => exists outcome, r = k outcome
  | RunProcess _ _ k => exists outcome, r = k outcome
  end.

(** An action that answers at once makes no call of the engine client and
    starts no process. *)
Definition calls_nothing (a : action) : Prop :=
  match a with
  | Reply _ | Escapes _ => True
  | CallEngine _ _ | RunProcess _ _ _ => False
  end.

Definition has_status (o : list (string * json)) (s : string) : bool :=
  match dict_lookup o "status" with
  | Some (JStr s') => String.eqb s' s
  | _ => false
  end.

(** The Success envelope: exactly the fields status, message, data and
    timestamp, with status "success". *)
Definition is_success_envelope (j : json) : bool :=
  match j with
  | JObj o =>
      bool_decide (map fst o = ["status"; "message"; "data"; "timestamp"])
      && has_status o "success"
  | _ => false
  end.

(** The Error envelope: exactly the fields status, error, error_code and
    timestamp, with status "error". *)
Definition is_error_envelope (j : json) : bool :=
  match j with
  | JObj o =>
      bool_decide (map fst o = ["status"; "error"; "error_code"; "timestamp"])
      && has_status o "error"
  | _ => false
  end.

Definition is_envelope (j : json) : bool :=
  xorb (is_success_envelope j) (is_error_envelope j).

(** An Error envelope with a given code, sent with a given status code. *)
Definition is_error (r : response) (status : Z) (code : string) : Prop :=
  status_code r = status
  /\ exists error ts, content r = create_error_response error code ts.

(** The request is past the payload decorator of the rule, when the rule
    has one: the body is JSON, is not empty, and misses no required field. *)
Definition payload_valid (r : route) (request : request) : Prop :=
  accepts_model r = true ->
  exists data,
    body request = Parsed data
    /\ truthy data = true
    /\ missing_fields (required_fields r) data = Ok [].

(** Timestamps that do not decrease from the front to the back. *)
Fixpoint nondecreasing (l : list Q) : bool :=
  match l with
  | a :: ((b :: _) as rest) => Qle_bool a b && nondecreasing rest
  | _ => true
  end.

(** A client address that is on a list. *)
Definition listed (addr : option string) (ips : list string) : Prop :=
  exists ip, addr = Some ip /\ ip ∈ ips.

(** The rate limiter lets the request through: it is switched off, or the
    record of the client, once the old timestamps are evicted, is below the
    budget. *)
Definition rate_admits (config : Config)
    (storage : gmap (option string) (list Q)) (request : request) (now : Q)
  : Prop :=
  RATE_LIMIT_ENABLED config = true ->
  Z.of_nat (length (evict now (default [] (storage !! remote_addr request))))
  < RATE_LIMIT_PER_MINUTE config.

(** The allow-list lets the request through: it is empty, or the client
    address is on it. *)
Definition allow_list_admits (config : Config) (request : request) : Prop :=
  get_allowed_ips_list config = []
  \/ listed (remote_addr request) (get_allowed_ips_list config).

(** A string of whitespace only; the empty string is one. *)
Fixpoint all_space (s : string) : bool :=
  match s with
  | EmptyString => true
  | String c s' => is_space c && all_space s'
  end.

(** A JSON object that carries every field that the rule requires. *)
Definition carries (o : list (string * json)) (fields : list string) : Prop :=
  forall field, field ∈ fields -> is_Some (dict_lookup o field).

(** The value divided by 1024, [k] times over. *)
Definition divided (v : Q) (k : nat) : Q :=
  Nat.iter k (fun x => (x / 1024)%Q) v.

End props.

(** ** Sample data *)

Module samples.
Import settings api.

(** A configuration with every policy switched on. *)
Definition strict : Config := {|
  PORT := 5000;
  DEBUG := false;
  OLLAMA_BASE_URL := "http://localhost:11434";
  OLLAMA_TIMEOUT := 3600;
  LOG_LEVEL := "INFO";
  CORS_ORIGINS := "*";
  API_KEY := Some "secret";
  ALLOWED_IPS := Some "10.0.0.1, 10.0.0.2";
  RATE_LIMIT_ENABLED := true;
  RATE_LIMIT_PER_MINUTE := 2
|}.

(** The defaults of the settings module: no policy is configured. *)
Definition open : Config := {|
  PORT := 5000;
  DEBUG := true;
  OLLAMA_BASE_URL := "http://localhost:11434";
  OLLAMA_TIMEOUT := 3600;
  LOG_LEVEL := "INFO";
  CORS_ORIGINS := "*";
  API_KEY := None;
  ALLOWED_IPS := None;
  RATE_LIMIT_ENABLED := false;
  RATE_LIMIT_PER_MINUTE := 60
|}.

Definition post (path : string) (addr : string) (data : json) : request :=
  Request path (Some addr) (Some "secret") None (Parsed data).

Definition probe : request :=
  Request "/health" (Some "192.168.1.7") None None NotJson.

(** A store with one client that asked at the seconds 100 and 130. *)
Definition store : gmap (option string) (list Q) :=
  {[ Some "10.0.0.1" := [100%Q; 130%Q] ]}.

Definition here : env := Env open "192.168.1.7" true 1000.

(** Bodies for the views that read a model name. *)
Definition only_bad_model : json := JObj [("model", JStr "a/b")].

Definition bad_model_no_messages : json :=
  JObj [("model", JStr "../x"); ("messages", JList [])].

Definition only_number_model : json := JObj [("model", JInt 5)].

Definition bad_model_with_prompt : json :=
  JObj [("model", JStr "a/b"); ("prompt", JStr "hello")].

Definition no_messages : json :=
  JObj [("model", JStr "llama2"); ("messages", JList [])].

Definition blank_model : json := JObj [("model", JStr "   ")].

(** A request with a wrong key in the header and the right one in the
    query. *)
Definition two_keys : request :=
  Request "/list" (Some "10.0.0.1") (Some "wrong") (Some "secret") NotJson.

Definition stranger : request :=
  Request "/list" (Some "172.16.0.9") (Some "secret") None NotJson.

End samples.

(** ** The rest of config/settings.py *)

Module startup.
Import settings.

(** The class attributes that [validate] and [print_config] read and that
    the record [Config] does not carry. *)
Record Rest := {
  HOST : string;
  OLLAMA_PORT : Z;
  REQUEST_TIMEOUT : Z;
  GENERATE_TIMEOUT : Z
}.

(** [Config.validate]: the comparisons of integers raise nothing, so the
    [except] clause is never entered. *)
Definition validate (cls : Config) (rest : Rest) : bool :=
  if negb ((1 <=? PORT cls) && (PORT cls <=? 65535)) then false
  else if negb ((1 <=? OLLAMA_PORT rest) && (OLLAMA_PORT rest <=? 65535)) then false
  else if REQUEST_TIMEOUT rest <=? 0 then false
  else if GENERATE_TIMEOUT rest <=? 0 then false
  else true.

Definition get_cors_origins_list (cls : Config) : list string :=
  if String.eqb (CORS_ORIGINS cls) "*" then ["*"]
  else map strip (split "," (CORS_ORIGINS cls)).

(** [str(b)] for a [bool]. *)
Definition str_bool (b : bool) : string := if b then "True" else "False".

(** [print_config]: the lines that it prints. *)
Definition print_config (cls : Config) (rest : Rest) : list string :=
  ["=== CONFIGURAZIONE API OLLAMA ===";
   "Server: " +:+ HOST rest +:+ ":" +:+ str_int (PORT cls);
   "Debug: " +:+ str_bool (DEBUG cls);
   "Ollama: " +:+ OLLAMA_BASE_URL cls;
   "Log Level: " +:+ LOG_LEVEL cls;
   "CORS Origins: " +:+ CORS_ORIGINS cls;
   "API Key: " +:+ (if is_set (API_KEY cls)
                    then "*** CONFIGURATA ***" else "Non configurata");
   "Rate Limiting: " +:+ str_bool (RATE_LIMIT_ENABLED cls)]
  ++ (if RATE_LIMIT_ENABLED cls
      then ["Rate Limit: " +:+ str_int (RATE_LIMIT_PER_MINUTE cls) +:+ " req/min"]
      else [])
  ++ ["==================================="].

End startup.

(** ** Requests in a row *)

Module run.
Import settings api.

(** A request as it arrives: with the reading of the clock that the rate
    limiter takes and the one that an error envelope takes. *)
Record arrival := Arrival {
  req : request;
  at_time : Q;
  stamp : Q
}.

(** The middleware on requests that are handled one after the other: each
    call starts from the store that the call before it left.  The result is
    the last store and the answers in the order of the requests. *)
Fixpoint serve (config : Config) (rate_limit_storage : gmap (option string) (list Q))
    (arrivals : list arrival)
  : gmap (option string) (list Q) * list (option response) :=
  match arrivals with
  | [] => (rate_limit_storage, [])
  | a :: rest =>
      let '(storage', answer) :=
        security_middleware config rate_limit_storage (req a) (at_time a)
          (stamp a) in
      let '(last, answers) := serve config storage' rest in
      (last, answer :: answers)
  end.

End run.

(** ** More vocabulary of the properties *)

Module facts.
Import utils settings api run.

(** An answer of the middleware that is the denial of the rate limiter. *)
Definition rate_denied (answer : option response) : Prop :=
  exists r, answer = Some r /\ status_code r = 429.

(** A string without the character [c]. *)
Fixpoint lacks (c : ascii) (s : string) : bool :=
  match s with
  | EmptyString => true
  | String x s' => negb (Ascii.eqb x c) && lacks c s'
  end.

(** A word: a string that is not empty and holds no whitespace. *)
Fixpoint no_space (s : string) : bool :=
  match s with
  | EmptyString => true
  | String c s' => negb (is_space c) && no_space s'
  end.

Definition word (s : string) : bool :=
  negb (String.eqb s EmptyString) && no_space s.

(** An entry of a comma-separated setting that is written plainly: not
    empty, without a comma and without whitespace around it. *)
Definition plain_entry (s : string) : bool :=
  negb (String.eqb s EmptyString) && lacks "," s
  && String.eqb (strip s) s.

(** The process that a row of columns of the table of [ollama ps] stands
    for. *)
Definition process_of_row (cols : list string) : json :=
  JObj [("name", JStr (nth 0 cols EmptyString));
        ("id", JStr (nth 1 cols EmptyString));
        ("size", JStr (nth 2 cols EmptyString));
        ("processor", JStr (nth 3 cols EmptyString));
        ("until", JStr (join " " (drop 4 cols)))].

(** The text of a table: the columns of a row joined by spaces, the rows by
    line feeds. *)
Definition table_text (rows : list (list string)) : string :=
  join (String newline EmptyString) (map (join " ") rows).

(** The model name with which a call of the engine client is made. *)
Definition called_model (c : engine_call) : option string :=
  match c with
  | ollama_generate model _ _ _ => Some model
  | ollama_chat model _ _ _ => Some model
  | ollama_pull model _ => Some model
  | ollama_list => None
  end.

(** The configuration with another API key. *)
Definition with_api_key (cls : Config) (key : option string) : Config := {|
  PORT := PORT cls;
  DEBUG := DEBUG cls;
  OLLAMA_BASE_URL := OLLAMA_BASE_URL cls;
  OLLAMA_TIMEOUT := OLLAMA_TIMEOUT cls;
  LOG_LEVEL := LOG_LEVEL cls;
  CORS_ORIGINS := CORS_ORIGINS cls;
  API_KEY := key;
  ALLOWED_IPS := ALLOWED_IPS cls;
  RATE_LIMIT_ENABLED := RATE_LIMIT_ENABLED cls;
  RATE_LIMIT_PER_MINUTE := RATE_LIMIT_PER_MINUTE cls
|}.



End facts.

(** ** More sample data *)

Module cases.
Import settings api run.

(** Three requests of one client within a minute. *)
Definition burst : list arrival :=
  [Arrival (samples.post "/list" "10.0.0.1" JNull) 100 100;
   Arrival (samples.post "/list" "10.0.0.1" JNull) 110 110;
   Arrival (samples.post "/list" "10.0.0.1" JNull) 120 120].

(** Bodies that are past the tests of their views. *)
Definition generate_fields : list (string * json) :=
  [("model", JStr "llama2");
   ("prompt", JStr "hi");
   ("options", JObj [("timeout", JInt 1); ("temperature", JInt 0)])].


Definition stop_fields : list (string * json) := [("model", JStr "llama2")].

(** A body whose options are null. *)
Definition null_options_fields : list (string * json) :=
  [("model", JStr "llama2"); ("prompt", JStr "hi"); ("options", JNull)].

(** A reply of the engine to [list]. *)
Definition catalogue : list json :=
  [JObj [("name", JStr "llama2:latest"); ("size", JInt 1572864)];
   JObj [("name", JStr "tiny")]].

(** Rate limiting switched on with a budget of zero. *)
Definition locked : Config := {|
  PORT := 5000;
  DEBUG := false;
  OLLAMA_BASE_URL := "http://localhost:11434";
  OLLAMA_TIMEOUT := 3600;
  LOG_LEVEL := "INFO";
  CORS_ORIGINS := "*";
  API_KEY := None;
  ALLOWED_IPS := None;
  RATE_LIMIT_ENABLED := true;
  RATE_LIMIT_PER_MINUTE := 0
|}.

Definition rest_defaults : startup.Rest := {|
  startup.HOST := "0.0.0.0";
  startup.OLLAMA_PORT := 11434;
  startup.REQUEST_TIMEOUT := 60;
  startup.GENERATE_TIMEOUT := 300
|}.

End cases.

(** * Properties *)

Import utils settings api props.

(** ** The embedding on concrete inputs *)

Example strip_example : strip "  llama2 " = "llama2".
Proof. reflexivity. Qed.

Example allowed_ips_example :
  get_allowed_ips_list samples.strict = ["10.0.0.1"; "10.0.0.2"].
Proof. reflexivity. Qed.

Example format_file_size_examples :
  map format_file_size [PyInt 5; PyInt 1280; PyInt 1048575; PyInt (-3);
                        PyInt (2 ^ 60)] =
    [Ok "5.0 B"; Ok "1.2 KB"; Ok "1024.0 KB"; Ok "-3.0 B"; Ok "1048576.0 TB"].
Proof. reflexivity. Qed.

Example format_file_size_overflow :
  format_file_size (PyInt (2 ^ 1024)) =
    Raise (OverflowError "int too large to convert to float").
Proof. vm_compute. reflexivity. Qed.

Example parse_processes_example :
  parse_processes
    ("NAME ID SIZE PROCESSOR UNTIL"
     +:+ String newline "llama2:latest 78e26419b446 5.1GB 100%GPU 4 minutes from now"
     +:+ String newline EmptyString) =
    [JObj [("name", JStr "llama2:latest");
           ("id", JStr "78e26419b446");
           ("size", JStr "5.1GB");
           ("processor", JStr "100%GPU");
           ("until", JStr "4 minutes from now")]].
Proof. reflexivity. Qed.

(** With a budget of two per minute, a third request within the minute is
    denied and its time is not recorded. *)
Example third_request_denied :
  exists r,
    security_middleware samples.strict samples.store
      (samples.post "/list" "10.0.0.1" JNull) 150 151 =
      (<[Some "10.0.0.1" := [100%Q; 130%Q]]> samples.store, Some r)
    /\ status_code r = 429.
Proof. eexists. split; reflexivity. Qed.

(** A body that is a number passes the emptiness test of the decorator and
    makes its membership test raise. *)
Example number_body_escapes :
  view samples.here Stop (samples.post "/stop" "10.0.0.1" (JInt 5)) =
    Escapes (TypeError "argument of type 'int' is not iterable").
Proof. reflexivity. Qed.

(** ** The rate limiter *)

Lemma nondecreasing_cons a l :
  nondecreasing (a :: l) = true -> nondecreasing l = true.
Proof.
  destruct l as [|b l]; [reflexivity|].
  simpl. intros [_ H]%andb_true_iff. exact H.
Qed.


Lemma nondecreasing_snoc l now :
  nondecreasing l = true ->
  (forall t, last l = Some t -> (t <= now)%Q) ->
  nondecreasing (l ++ [now]) = true.
Proof.
  induction l as [|a l IH]; intros Hs Hlast; [reflexivity|].
  destruct l as [|b l].
  - simpl. rewrite andb_true_r. apply Qle_bool_iff, Hlast. reflexivity.
  - change ((a :: b :: l) ++ [now]) with (a :: ((b :: l) ++ [now])).
    simpl in Hs. apply andb_true_iff in Hs as [Hab Hs].
    change (Qle_bool a b && nondecreasing ((b :: l) ++ [now]) = true).
    rewrite Hab. simpl. apply IH; [assumption|].
    intros t Ht. apply Hlast. rewrite last_cons. simpl in Ht. by rewrite Ht.
Qed.


(** The eviction loop at one reading of the clock. *)
Section eviction.

Variable now : Q.


Lemma expired_false t : expired now t = false <-> (now - t <= 60)%Q.
Proof.
  unfold expired. rewrite negb_false_iff. apply Qle_bool_iff.
Qed.



Lemma evict_nondecreasing l :
  nondecreasing l = true -> nondecreasing (evict now l) = true.
Proof.
  induction l as [|a l IH]; simpl evict; [reflexivity|].
  intros Hs. destruct (expired now a); [|assumption].
  apply IH. by apply nondecreasing_cons in Hs.
Qed.



End eviction.

Lemma middleware_limited config storage request now ts :
  path request <> "/health" ->
  RATE_LIMIT_ENABLED config = true ->
  security_middleware config storage request now ts =
    let client_ip := remote_addr request in
    let kept := evict now (default [] (storage !! client_ip)) in
    if RATE_LIMIT_PER_MINUTE config <=? Z.of_nat (length kept) then
      (<[client_ip := kept]> storage,
       Some (Response
               (create_error_response
                  ("Rate limit superato: massimo "
                   +:+ str_int (RATE_LIMIT_PER_MINUTE config)
                   +:+ " richieste per minuto")
                  "RATE_LIMIT_EXCEEDED" ts)
               429))
    else
      (<[client_ip := kept ++ [now]]> storage, allowed_ip_check config request ts).
Proof.
  intros Hpath Hon. unfold security_middleware.
  apply String.eqb_neq in Hpath. rewrite Hpath, Hon. reflexivity.
Qed.



(** C2.  A request to /health is allowed whatever the configuration, the
    client address, the headers and the query: the middleware answers
    nothing and leaves the rate-limit store as it found it. *)
Theorem health_is_exempt config storage request now ts :
  path request = "/health" ->
  security_middleware config storage request now ts = (storage, None).
Proof.
  intros Hpath. unfold security_middleware. rewrite Hpath. reflexivity.
Qed.

Lemma health_is_exempt_strict :
  security_middleware samples.strict samples.store samples.probe 170 171 =
    (samples.store, None).
Proof.
  exact (health_is_exempt samples.strict samples.store samples.probe 170 171
           eq_refl).
Defined.





(** ** The allow-list and the API key *)

Lemma split_not_nil sep s : split sep s <> [].
Proof.
  destruct s as [|c s]; simpl; [discriminate|].
  destruct (Ascii.eqb c sep); [discriminate|].
  destruct (split sep s); discriminate.
Qed.

Lemma is_set_false o : is_set o = false <-> o = None \/ o = Some EmptyString.
Proof.
  destruct o as [s|]; simpl.
  - rewrite negb_false_iff, String.eqb_eq. split.
    + intros ->. by right.
    + intros [|[= ->]]; [discriminate | reflexivity].
  - split; [by left | reflexivity].
Qed.

(** The parsed allow-list is empty exactly when the setting is absent or
    empty. *)
Lemma allowed_ips_nil config :
  get_allowed_ips_list config = [] <->
  ALLOWED_IPS config = None \/ ALLOWED_IPS config = Some EmptyString.
Proof.
  unfold get_allowed_ips_list. rewrite <- is_set_false.
  destruct (ALLOWED_IPS config) as [ips|]; [|done].
  destruct (is_set (Some ips)) eqn:E; [|done].
  split; [|discriminate].
  intros H%map_eq_nil. by apply split_not_nil in H.
Qed.

Lemma middleware_admitted config storage request now ts :
  path request <> "/health" ->
  rate_admits config storage request now ->
  (security_middleware config storage request now ts).2 =
    allowed_ip_check config request ts.
Proof.
  intros Hpath Hrate. unfold security_middleware.
  apply String.eqb_neq in Hpath. rewrite Hpath.
  destruct (RATE_LIMIT_ENABLED config) eqn:Hon; [|reflexivity].
  specialize (Hrate Hon). apply Z.leb_gt in Hrate. rewrite Hrate.
  reflexivity.
Qed.

Lemma allowed_ip_check_denied config request ts :
  get_allowed_ips_list config <> [] ->
  ~ listed (remote_addr request) (get_allowed_ips_list config) ->
  allowed_ip_check config request ts =
    Some (Response
            (create_error_response "Accesso negato: IP non autorizzato"
               "UNAUTHORIZED_IP" ts)
            403).
Proof.
  intros Hne Hout. unfold allowed_ip_check.
  destruct (get_allowed_ips_list config) as [|ip0 ips] eqn:E; [done|].
  destruct (remote_addr request) as [ip|] eqn:Ea; [|reflexivity].
  rewrite bool_decide_eq_false_2; [reflexivity|].
  intros Hin. apply Hout. by exists ip.
Qed.

Lemma allowed_ip_check_passed config request ts :
  allow_list_admits config request ->
  allowed_ip_check config request ts = api_key_check config request ts.
Proof.
  intros [Hnil | [ip [Ha Hin]]]; unfold allowed_ip_check.
  - rewrite Hnil. reflexivity.
  - rewrite Ha, bool_decide_eq_true_2 by assumption.
    by rewrite andb_false_r.
Qed.

(** C3.  Take a request to a path other than /health that the rate limiter
    lets through.  With a non-empty allow-list, the answer is the error
    UNAUTHORIZED_IP with status 403 when the client address is not on the
    list, and the answer of the API-key check when it is.  With an empty
    allow-list, which is the case exactly when the setting is absent or the
    empty string, the answer is that of the API-key check. *)
Theorem allow_list_step config storage request now ts :
  path request <> "/health" ->
  rate_admits config storage request now ->
  let answer := (security_middleware config storage request now ts).2 in
  let allowed_ips := get_allowed_ips_list config in
  (allowed_ips <> [] ->
   ~ listed (remote_addr request) allowed_ips ->
   exists r, answer = Some r /\ is_error r 403 "UNAUTHORIZED_IP")
  /\ (allowed_ips <> [] ->
      listed (remote_addr request) allowed_ips ->
      answer = api_key_check config request ts)
  /\ (allowed_ips = [] -> answer = api_key_check config request ts)
  /\ (allowed_ips = [] <->
      ALLOWED_IPS config = None \/ ALLOWED_IPS config = Some EmptyString).
Proof.
  intros Hpath Hrate answer allowed_ips. subst answer allowed_ips.
  rewrite (middleware_admitted _ _ _ _ _ Hpath Hrate).
  split; [|split; [|split]].
  - intros Hne Hout. rewrite (allowed_ip_check_denied _ _ _ Hne Hout).
    eexists. split; [reflexivity|].
    split; [reflexivity|]. eexists _, _. reflexivity.
  - intros _ Hin. apply allowed_ip_check_passed. by right.
  - intros Hnil. apply allowed_ip_check_passed. by left.
  - apply allowed_ips_nil.
Qed.

Lemma strict_admits_first request now :
  rate_admits samples.strict ∅ request now.
Proof. intros _. rewrite lookup_empty. reflexivity. Qed.

Lemma allow_list_step_strict :
  let answer := (security_middleware samples.strict ∅ samples.stranger 170 171).2 in
  let allowed_ips := get_allowed_ips_list samples.strict in
  (allowed_ips <> [] ->
   ~ listed (remote_addr samples.stranger) allowed_ips ->
   exists r, answer = Some r /\ is_error r 403 "UNAUTHORIZED_IP")
  /\ (allowed_ips <> [] ->
      listed (remote_addr samples.stranger) allowed_ips ->
      answer = api_key_check samples.strict samples.stranger 171)
  /\ (allowed_ips = [] -> answer = api_key_check samples.strict samples.stranger 171)
  /\ (allowed_ips = [] <->
      ALLOWED_IPS samples.strict = None
      \/ ALLOWED_IPS samples.strict = Some EmptyString).
Proof.
  exact (allow_list_step samples.strict ∅ samples.stranger 170 171
           ltac:(intros H; vm_compute in H; discriminate H) (strict_admits_first samples.stranger 170)).
Defined.

Lemma provided_key_header request h :
  header_x_api_key request = Some h -> h <> EmptyString ->
  provided_key request = Some h.
Proof.
  intros Hh Hne. unfold provided_key. rewrite Hh. simpl.
  apply String.eqb_neq in Hne. rewrite Hne. reflexivity.
Qed.

Lemma provided_key_query request :
  header_x_api_key request = None \/ header_x_api_key request = Some EmptyString ->
  provided_key request = arg_api_key request.
Proof.
  intros H%is_set_false. unfold provided_key. rewrite H. reflexivity.
Qed.

Lemma middleware_to_api_key config storage request now ts :
  path request <> "/health" ->
  rate_admits config storage request now ->
  allow_list_admits config request ->
  (security_middleware config storage request now ts).2 =
    api_key_check config request ts.
Proof.
  intros Hpath Hrate Hip.
  rewrite (middleware_admitted _ _ _ _ _ Hpath Hrate).
  by apply allowed_ip_check_passed.
Qed.

Lemma strict_lists_first_client :
  allow_list_admits samples.strict samples.two_keys.
Proof.
  right. exists "10.0.0.1". split; [reflexivity|]. vm_compute. constructor.
Qed.

(** C4, as stated, fails: a request that carries the configured key in the
    query parameter api_key and another value in the header X-API-Key is
    past the rate limiter and the allow-list, and is denied with
    INVALID_API_KEY. *)
Lemma key_in_query_behind_header_denied :
  arg_api_key samples.two_keys = API_KEY samples.strict
  /\ path samples.two_keys <> "/health"
  /\ rate_admits samples.strict ∅ samples.two_keys 170
  /\ allow_list_admits samples.strict samples.two_keys
  /\ exists r,
      (security_middleware samples.strict ∅ samples.two_keys 170 171).2 = Some r
      /\ is_error r 401 "INVALID_API_KEY".
Proof.
  split; [reflexivity|]. split; [intros H; vm_compute in H; discriminate H|].
  split; [apply strict_admits_first|].
  split; [exact strict_lists_first_client|].
  rewrite (middleware_to_api_key samples.strict ∅ samples.two_keys 170 171
             ltac:(intros H; vm_compute in H; discriminate H)
             (strict_admits_first _ _) strict_lists_first_client).
  eexists. split; [reflexivity|].
  split; [reflexivity|]. eexists _, _. reflexivity.
Qed.

(** C4, amended.  Take a request to a path other than /health that is past
    the rate limiter and the allow-list.  Its candidate key is the header
    X-API-Key when that is present and not empty, and the query parameter
    api_key otherwise.  With an API key configured, the request is allowed
    when the candidate is exactly the configured key and is denied with the
    error INVALID_API_KEY and status 401 when the candidate is another value
    or is absent.  With no API key configured (absent or empty) the request
    is allowed. *)
Theorem api_key_step config storage request now ts :
  path request <> "/health" ->
  rate_admits config storage request now ->
  allow_list_admits config request ->
  let answer := (security_middleware config storage request now ts).2 in
  (forall h, header_x_api_key request = Some h -> h <> EmptyString ->
             provided_key request = Some h)
  /\ (header_x_api_key request = None
      \/ header_x_api_key request = Some EmptyString ->
      provided_key request = arg_api_key request)
  /\ (forall key, API_KEY config = Some key -> key <> EmptyString ->
        (provided_key request = Some key -> answer = None)
        /\ (provided_key request <> Some key ->
            exists r, answer = Some r /\ is_error r 401 "INVALID_API_KEY"))
  /\ (API_KEY config = None \/ API_KEY config = Some EmptyString ->
      answer = None).
Proof.
  intros Hpath Hrate Hip answer. subst answer.
  rewrite (middleware_to_api_key _ _ _ _ _ Hpath Hrate Hip).
  split; [intros h; apply provided_key_header|].
  split; [apply provided_key_query|].
  unfold api_key_check. split.
  - intros key Hkey Hne. rewrite Hkey. simpl.
    apply String.eqb_neq in Hne. rewrite Hne. simpl. split.
    + intros ->. by rewrite bool_decide_eq_true_2.
    + intros Hdiff. rewrite bool_decide_eq_false_2 by assumption. simpl.
      eexists. split; [reflexivity|].
      split; [reflexivity|]. eexists _, _. reflexivity.
  - intros H%is_set_false. rewrite H. reflexivity.
Qed.

Lemma api_key_step_two_keys :
  let request := samples.two_keys in
  let answer := (security_middleware samples.strict ∅ request 170 171).2 in
  (forall h, header_x_api_key request = Some h -> h <> EmptyString ->
             provided_key request = Some h)
  /\ (header_x_api_key request = None
      \/ header_x_api_key request = Some EmptyString ->
      provided_key request = arg_api_key request)
  /\ (forall key, API_KEY samples.strict = Some key -> key <> EmptyString ->
        (provided_key request = Some key -> answer = None)
        /\ (provided_key request <> Some key ->
            exists r, answer = Some r /\ is_error r 401 "INVALID_API_KEY"))
  /\ (API_KEY samples.strict = None \/ API_KEY samples.strict = Some EmptyString ->
      answer = None).
Proof.
  exact (api_key_step samples.strict ∅ samples.two_keys 170 171
           ltac:(intros H; vm_compute in H; discriminate H) (strict_admits_first samples.two_keys 170)
           strict_lists_first_client).
Defined.

(** ** The model name and the views that read it *)

Lemma validate_model_name_string v :
  validate_model_name v = true -> exists s, v = JStr s.
Proof.
  destruct v; unfold validate_model_name; rewrite ?orb_true_r;
    try discriminate; eauto.
Qed.

Lemma validate_model_name_not_string v :
  (forall s, v <> JStr s) -> validate_model_name v = false.
Proof.
  intros Hv. destruct (validate_model_name v) eqn:E; [|reflexivity].
  apply validate_model_name_string in E as [s ->]. by destruct (Hv s).
Qed.

Lemma lstrip_all_space s : all_space s = true -> lstrip s = EmptyString.
Proof.
  induction s as [|c s IH]; [reflexivity|].
  simpl. intros [Hc Hs]%andb_true_iff. rewrite Hc. by apply IH.
Qed.

Lemma validate_model_name_blank s :
  all_space s = true -> validate_model_name (JStr s) = false.
Proof.
  intros Hs. unfold validate_model_name.
  destruct (negb (truthy (JStr s)) || negb true); [reflexivity|].
  unfold strip. rewrite (lstrip_all_space _ Hs). reflexivity.
Qed.

Lemma validate_model_name_dangerous s bad :
  bad ∈ dangerous_chars -> contains bad s = true ->
  validate_model_name (JStr s) = false.
Proof.
  intros Hbad Hin. unfold validate_model_name.
  destruct (negb (truthy (JStr s)) || negb true); [reflexivity|].
  apply andb_false_intro2, negb_false_iff, existsb_exists.
  exists bad. split; [by apply list_elem_of_In | assumption].
Qed.

Lemma missing_fields_carried o fields :
  carries o fields -> missing_fields fields (JObj o) = Ok [].
Proof.
  induction fields as [|f fields IH]; intros Hc; [reflexivity|].
  simpl. destruct (Hc f) as [v Hv]; [by left|]. rewrite Hv. simpl.
  rewrite IH; [reflexivity|]. intros g Hg. apply Hc. by right.
Qed.

(** The payload decorator hands a JSON object that carries the required
    fields on to the view. *)
Lemma payload_accepted fields func request o :
  body request = Parsed (JObj o) ->
  carries o fields ->
  is_Some (dict_lookup o "model") ->
  validate_json_payload fields func request = func request.
Proof.
  intros Hb Hc [v Hv]. unfold validate_json_payload, is_json, get_json.
  rewrite Hb. simpl.
  destruct o as [|kv o]; [discriminate|]. simpl.
  by rewrite (missing_fields_carried _ _ Hc).
Qed.

(** Past the decorator, a model name that the validator refuses ends the
    view with the answer INVALID_MODEL_NAME. *)
Lemma view_invalid_model e r request o :
  accepts_model r = true ->
  body request = Parsed (JObj o) ->
  carries o (required_fields r) ->
  is_Some (dict_lookup o "model") ->
  validate_model_name (dict_get o "model" JNull) = false ->
  view e r request = Reply (invalid_model_name (timestamp e)).
Proof.
  intros Hr Hb Hc Hm Hbad.
  destruct r; try discriminate; simpl;
    unfold generate_response, chat, stop_model, pull_model, log_request_info;
    rewrite (payload_accepted _ _ _ _ Hb Hc Hm);
    unfold generate_response_body, chat_body, stop_model_body, pull_model_body,
      get_json;
    rewrite Hb; simpl; rewrite Hbad; reflexivity.
Qed.

Lemma invalid_model_name_is_error ts :
  is_error (invalid_model_name ts) 400 "INVALID_MODEL_NAME".
Proof. split; [reflexivity|]. eexists _, _. reflexivity. Qed.

Lemma dict_get_lookup o k v d : dict_lookup o k = Some v -> dict_get o k d = v.
Proof. unfold dict_get. by intros ->. Qed.

Lemma bare_error_not_envelope msg status code :
  ~ is_error (Response (JObj [("error", JStr msg)]) status) status code.
Proof. intros [_ [error [ts H]]]. discriminate H. Qed.

(** C5, as stated, fails: on /generate a body whose model name holds a
    slash and which has no prompt is answered by the payload decorator with
    status 400 and the bare object that lists the missing field, not with
    INVALID_MODEL_NAME. *)
Lemma dangerous_model_without_prompt :
  let request := samples.post "/generate" "10.0.0.1" samples.only_bad_model in
  body request = Parsed (JObj [("model", JStr "a/b")])
  /\ contains "/" "a/b" = true
  /\ view samples.here Generate request =
       Reply (Response (JObj [("error", JStr "Campi mancanti: prompt")]) 400)
  /\ ~ exists r, view samples.here Generate request = Reply r
                 /\ is_error r 400 "INVALID_MODEL_NAME".
Proof.
  split; [reflexivity|]. split; [reflexivity|]. split; [reflexivity|].
  intros [r [Hr Herr]]. vm_compute in Hr. injection Hr as <-.
  by apply bare_error_not_envelope in Herr.
Qed.

(** C5, amended.  For each of the views generate, chat, stop and pull: when
    the body is a JSON object that carries the fields that the view
    requires, and its model is a string that holds one of the substrings
    /, \, .., <, >, |, & and ;, the view answers with the error
    INVALID_MODEL_NAME and status 400, and it makes no call of the Model
    Engine and starts no process. *)
Theorem dangerous_model_name_rejected e r request o s bad :
  accepts_model r = true ->
  body request = Parsed (JObj o) ->
  carries o (required_fields r) ->
  dict_lookup o "model" = Some (JStr s) ->
  bad ∈ dangerous_chars ->
  contains bad s = true ->
  view e r request = Reply (invalid_model_name (timestamp e))
  /\ is_error (invalid_model_name (timestamp e)) 400 "INVALID_MODEL_NAME"
  /\ calls_nothing (view e r request).
Proof.
  intros Hr Hb Hc Hm Hbad Hin.
  assert (Hview : view e r request = Reply (invalid_model_name (timestamp e))).
  { apply (view_invalid_model e r request o Hr Hb Hc); [by eexists|].
    rewrite (dict_get_lookup _ _ _ _ Hm).
    by apply (validate_model_name_dangerous s bad). }
  split; [exact Hview|]. split; [apply invalid_model_name_is_error|].
  rewrite Hview. exact I.
Qed.

Lemma carries_model_prompt :
  carries [("model", JStr "a/b"); ("prompt", JStr "hello")] ["model"; "prompt"].
Proof.
  intros f Hf. apply list_elem_of_In in Hf.
  destruct Hf as [<-|[<-|[]]]; by eexists.
Qed.

Lemma slash_is_dangerous : "/" ∈ dangerous_chars.
Proof. by left. Qed.

Lemma dangerous_model_name_rejected_generate :
  let request := samples.post "/generate" "10.0.0.1" samples.bad_model_with_prompt in
  view samples.here Generate request =
    Reply (invalid_model_name (timestamp samples.here))
  /\ is_error (invalid_model_name (timestamp samples.here)) 400 "INVALID_MODEL_NAME"
  /\ calls_nothing (view samples.here Generate request).
Proof.
  exact (dangerous_model_name_rejected samples.here Generate
           (samples.post "/generate" "10.0.0.1" samples.bad_model_with_prompt)
           [("model", JStr "a/b"); ("prompt", JStr "hello")] "a/b" "/"
           eq_refl eq_refl carries_model_prompt eq_refl slash_is_dangerous eq_refl).
Defined.

(** C8, as stated, fails: on /chat a body with both required fields, an
    empty list of messages and a model name that the validator refuses is
    answered with INVALID_MODEL_NAME, not with INVALID_MESSAGES_FORMAT. *)
Lemma empty_messages_behind_bad_model :
  let request := samples.post "/chat" "10.0.0.1" samples.bad_model_no_messages in
  body request = Parsed (JObj [("model", JStr "../x"); ("messages", JList [])])
  /\ view samples.here Chat request =
       Reply (invalid_model_name (timestamp samples.here))
  /\ ~ exists r, view samples.here Chat request = Reply r
                 /\ is_error r 400 "INVALID_MESSAGES_FORMAT".
Proof.
  split; [reflexivity|]. split; [reflexivity|].
  intros [r [Hr [_ [error [ts Herr]]]]]. vm_compute in Hr. injection Hr as <-.
  discriminate Herr.
Qed.

(** C8, amended.  On /chat, when the body is a JSON object with the fields
    model and messages, the model name passes the validator, and the
    messages are not a non-empty list, the view answers with the error
    INVALID_MESSAGES_FORMAT and status 400 and does not call the chat
    operation of the Model Engine. *)
Theorem invalid_messages_rejected e request o model messages :
  body request = Parsed (JObj o) ->
  dict_lookup o "model" = Some model ->
  dict_lookup o "messages" = Some messages ->
  validate_model_name model = true ->
  (forall m ms, messages <> JList (m :: ms)) ->
  calls_nothing (view e Chat request)
  /\ exists r, view e Chat request = Reply r
               /\ is_error r 400 "INVALID_MESSAGES_FORMAT".
Proof.
  intros Hb Hmodel Hmsgs Hvalid Hshape.
  assert (Hc : carries o ["model"; "messages"]).
  { intros f Hf. apply list_elem_of_In in Hf.
    destruct Hf as [<-|[<-|[]]]; by eexists. }
  assert (Hview : view e Chat request =
            Reply (Response
                     (create_error_response
                        "I messaggi devono essere una lista non vuota"
                        "INVALID_MESSAGES_FORMAT" (timestamp e))
                     400)).
  { simpl. unfold chat, log_request_info.
    rewrite (payload_accepted _ _ _ _ Hb Hc) by by eexists.
    unfold chat_body, get_json. rewrite Hb. simpl.
    rewrite (dict_get_lookup _ _ _ _ Hmodel), (dict_get_lookup _ _ _ _ Hmsgs).
    rewrite Hvalid.
    destruct (validate_model_name_string _ Hvalid) as [name ->].
    destruct messages as [| | | | |[|m ms]|]; try reflexivity.
    by destruct (Hshape m ms). }
  rewrite Hview. split; [exact I|].
  eexists. split; [reflexivity|].
  split; [reflexivity|]. eexists _, _. reflexivity.
Qed.

Lemma invalid_messages_rejected_empty :
  let request := samples.post "/chat" "10.0.0.1" samples.no_messages in
  calls_nothing (view samples.here Chat request)
  /\ exists r, view samples.here Chat request = Reply r
               /\ is_error r 400 "INVALID_MESSAGES_FORMAT".
Proof.
  exact (invalid_messages_rejected samples.here
           (samples.post "/chat" "10.0.0.1" samples.no_messages)
           [("model", JStr "llama2"); ("messages", JList [])]
           (JStr "llama2") (JList [])
           eq_refl eq_refl eq_refl eq_refl
           ltac:(intros m ms H; discriminate H)).
Defined.

(** C10, as stated, fails: on /chat a body whose model is a number and
    which has no messages is answered by the payload decorator with status
    400 and the bare object that lists the missing field, not with
    INVALID_MODEL_NAME. *)
Lemma number_model_without_messages :
  let request := samples.post "/chat" "10.0.0.1" samples.only_number_model in
  body request = Parsed (JObj [("model", JInt 5)])
  /\ view samples.here Chat request =
       Reply (Response (JObj [("error", JStr "Campi mancanti: messages")]) 400)
  /\ ~ exists r, view samples.here Chat request = Reply r
                 /\ is_error r 400 "INVALID_MODEL_NAME".
Proof.
  split; [reflexivity|]. split; [reflexivity|].
  intros [r [Hr Herr]]. vm_compute in Hr. injection Hr as <-.
  by apply bare_error_not_envelope in Herr.
Qed.

(** C10, amended.  The validator is a total function on JSON values that
    answers False for every value that is not a string and for every string
    that is empty or made of whitespace only.  So for each of the views
    generate, chat, stop and pull: when the body is a JSON object that
    carries the fields that the view requires, and its model is not a string
    or is a string of whitespace only, the view answers with the error
    INVALID_MODEL_NAME and status 400; no exception escapes and no call is
    made. *)
Theorem model_name_validator_total :
  (forall v, (forall s, v <> JStr s) -> validate_model_name v = false)
  /\ (forall s, all_space s = true -> validate_model_name (JStr s) = false)
  /\ (forall e r request o v,
        accepts_model r = true ->
        body request = Parsed (JObj o) ->
        carries o (required_fields r) ->
        dict_lookup o "model" = Some v ->
        (forall s, v = JStr s -> all_space s = true) ->
        view e r request = Reply (invalid_model_name (timestamp e))
        /\ is_error (invalid_model_name (timestamp e)) 400 "INVALID_MODEL_NAME"
        /\ calls_nothing (view e r request)).
Proof.
  split; [exact validate_model_name_not_string|].
  split; [exact validate_model_name_blank|].
  intros e r request o v Hr Hb Hc Hm Hv.
  assert (Hview : view e r request = Reply (invalid_model_name (timestamp e))).
  { apply (view_invalid_model e r request o Hr Hb Hc); [by eexists|].
    rewrite (dict_get_lookup _ _ _ _ Hm).
    destruct (validate_model_name v) eqn:E; [|reflexivity].
    destruct (validate_model_name_string _ E) as [s ->].
    rewrite <- E. by apply validate_model_name_blank, Hv. }
  split; [exact Hview|]. split; [apply invalid_model_name_is_error|].
  rewrite Hview. exact I.
Qed.

Lemma carries_model : carries [("model", JStr "   ")] ["model"].
Proof.
  intros f Hf. apply list_elem_of_In in Hf. destruct Hf as [<-|[]]. by eexists.
Qed.

Lemma model_name_validator_total_stop :
  let request := samples.post "/stop" "10.0.0.1" samples.blank_model in
  view samples.here Stop request =
    Reply (invalid_model_name (timestamp samples.here))
  /\ is_error (invalid_model_name (timestamp samples.here)) 400 "INVALID_MODEL_NAME"
  /\ calls_nothing (view samples.here Stop request).
Proof.
  exact (proj2 (proj2 model_name_validator_total) samples.here Stop
           (samples.post "/stop" "10.0.0.1" samples.blank_model)
           [("model", JStr "   ")] (JStr "   ")
           eq_refl eq_refl carries_model eq_refl
           ltac:(intros s [= <-]; reflexivity)).
Defined.

(** ** The envelopes *)

(** The responses that the helpers of the views build. *)
Inductive built : response -> Prop :=
| built_success data message ts status :
    built (Response (create_success_response data message ts) status)
| built_error error code ts status :
    built (Response (create_error_response error code ts) status).

Create HintDb envelope.

#[local] Hint Constructors built : envelope.

Lemma built_is_envelope r : built r -> is_envelope (content r) = true.
Proof. destruct 1; reflexivity. Qed.

Lemma success_200_built data message ts : built (success_200 data message ts).
Proof. constructor. Qed.

Lemma error_500_built error code ts : built (error_500 error code ts).
Proof. constructor. Qed.

Lemma invalid_model_name_built ts : built (invalid_model_name ts).
Proof. constructor. Qed.

Lemma engine_failure_built what ts e : built (engine_failure what ts e).
Proof. destruct e; apply error_500_built. Qed.

#[local] Hint Resolve success_200_built error_500_built invalid_model_name_built
  engine_failure_built : envelope.

(** Case analysis on the tests that a view makes on its way to an answer,
    the innermost test first. *)
Ltac destruct_innermost x :=
  lazymatch x with
  | context [match ?y with _ => _ end] => destruct_innermost y
  | _ => destruct x
  end.

Ltac view_cases :=
  repeat match goal with
    | H : sends (Reply _) _ |- _ => simpl in H; subst
    | H : sends (CallEngine _ _) _ |- _ => destruct H as [? ->]
    | H : sends (RunProcess _ _ _) _ |- _ => destruct H as [? ->]
    | H : sends (match ?x with _ => _ end) _ |- _ => destruct_innermost x
    | |- built (match ?x with _ => _ end) => destruct_innermost x
    | |- built _ => solve [auto with envelope]
    end.

Lemma generate_response_body_built config ts request r :
  sends (generate_response_body config ts request) r -> built r.
Proof.
  unfold generate_response_body, try_except, get_json, as_dict, as_mapping, bind.
  intros H. view_cases.
Qed.

Lemma chat_body_built config ts request r :
  sends (chat_body config ts request) r -> built r.
Proof.
  unfold chat_body, try_except, get_json, as_dict, as_mapping, bind.
  intros H. view_cases.
Qed.

Lemma list_models_body_built ts request r :
  sends (list_models_body ts request) r -> built r.
Proof.
  unfold list_models_body. intros [outcome ->]. view_cases.
Qed.

Lemma process_status_body_built ts request r :
  sends (process_status_body ts request) r -> built r.
Proof.
  unfold process_status_body. intros [outcome ->]. view_cases.
Qed.

Lemma stop_model_body_built ts request r :
  sends (stop_model_body ts request) r -> built r.
Proof.
  unfold stop_model_body, try_except, get_json, as_dict, bind.
  intros H. view_cases.
Qed.

Lemma pull_model_body_built config ts request r :
  sends (pull_model_body config ts request) r -> built r.
Proof.
  unfold pull_model_body, try_except, get_json, as_dict, bind.
  intros H. view_cases.
Qed.

(** The payload decorator hands a request that it accepts on to the view. *)
Lemma payload_passed fields func request data :
  body request = Parsed data ->
  truthy data = true ->
  missing_fields fields data = Ok [] ->
  validate_json_payload fields func request = func request.
Proof.
  intros Hb Ht Hm. unfold validate_json_payload, is_json, get_json.
  rewrite Hb. simpl. by rewrite Ht, Hm.
Qed.

(** C6, as stated, fails: the answer of GET /health is a bare object whose
    status is "ok", with neither envelope shape; and on /generate the answer
    with status 400 for a missing field is a bare object with the one field
    error, with neither envelope shape. *)
Lemma health_answer_is_no_envelope :
  (exists r,
      view samples.here Health samples.probe = Reply r
      /\ status_code r = 200
      /\ is_success_envelope (content r) = false
      /\ is_error_envelope (content r) = false)
  /\ (exists r,
        view samples.here Generate
          (samples.post "/generate" "10.0.0.1" samples.only_bad_model) = Reply r
        /\ r = Response (JObj [("error", JStr "Campi mancanti: prompt")]) 400
        /\ is_success_envelope (content r) = false
        /\ is_error_envelope (content r) = false).
Proof.
  split; eexists; (split; [reflexivity|]); repeat split; reflexivity.
Qed.

(** C6, amended.  Every response that the views generate, chat, list, ps,
    stop and pull send to a request that is past the payload decorator is
    exactly one of the two envelope shapes.  The response of GET /health has
    status 200 and is a bare object with status "ok", of neither envelope
    shape.  Every denial of the admission middleware and every answer of the
    handlers for 404, 405 and 500 is an Error envelope. *)
Theorem envelope_shapes :
  (forall e route request r,
      payload_valid route request ->
      sends (view e route request) r ->
      match route with
      | Health =>
          status_code r = 200
          /\ is_envelope (content r) = false
          /\ exists o, content r = JObj o
                       /\ dict_lookup o "status" = Some (JStr "ok")
      | _ => is_envelope (content r) = true
      end)
  /\ (forall config storage request now ts storage' r,
        security_middleware config storage request now ts = (storage', Some r) ->
        is_error_envelope (content r) = true
        /\ is_success_envelope (content r) = false)
  /\ (forall ts r,
        r = not_found ts \/ r = method_not_allowed ts
        \/ r = internal_server_error ts ->
        is_error_envelope (content r) = true
        /\ is_success_envelope (content r) = false).
Proof.
  split; [|split].
  - intros e route request r Hvalid Hr.
    destruct route;
      unfold view, health_check, generate_response, chat, list_models,
        process_status, stop_model, pull_model, log_request_info in Hr;
      try (destruct (Hvalid eq_refl) as [data [Hb [Ht Hm]]];
           rewrite (payload_passed _ _ _ _ Hb Ht Hm) in Hr);
      try (apply built_is_envelope).
    + simpl in Hr. subst r. split; [reflexivity|]. split; [reflexivity|].
      eexists. split; reflexivity.
    + by eapply generate_response_body_built.
    + by eapply chat_body_built.
    + by eapply list_models_body_built.
    + by eapply process_status_body_built.
    + by eapply stop_model_body_built.
    + by eapply pull_model_body_built.
  - intros config storage request now ts storage' r.
    unfold security_middleware, allowed_ip_check, api_key_check.
    repeat match goal with
      | |- context [if ?b then _ else _] => destruct b
      end; intros [= <- <-] || intros [= <-] || intros [=]; by split.
  - intros ts r [->|[->| ->]]; by split.
Qed.

Lemma probe_payload_valid : payload_valid List samples.probe.
Proof. intros H. discriminate H. Qed.

Lemma envelope_shapes_list_down :
  is_envelope
    (content
       (error_500
          "Errore nel recuperare la lista dei modelli: connection refused"
          "LIST_MODELS_ERROR" 1000)) = true.
Proof.
  exact (proj1 envelope_shapes samples.here List samples.probe
           (error_500
              "Errore nel recuperare la lista dei modelli: connection refused"
              "LIST_MODELS_ERROR" 1000)
           probe_payload_valid
           (ex_intro _ (Raise (Exception "connection refused")) eq_refl)).
Defined.

(** ** The size formatting *)

Lemma append_assoc (a b c : string) : (a +:+ b) +:+ c = a +:+ (b +:+ c).
Proof.
  induction a as [|x a IH]; [reflexivity|].
  change (String x ((a +:+ b) +:+ c) = String x (a +:+ (b +:+ c))).
  by rewrite IH.
Qed.

Lemma digit_length d : 0 <= d <= 9 -> String.length (digits d) = 1%nat.
Proof.
  intros Hd.
  assert (H : d = 0 \/ d = 1 \/ d = 2 \/ d = 3 \/ d = 4 \/ d = 5 \/ d = 6
              \/ d = 7 \/ d = 8 \/ d = 9) by lia.
  repeat destruct H as [->|H]; try subst d; reflexivity.
Qed.

(** The rendering ends in a point and one decimal digit. *)
Lemma format_1f_shape v :
  exists whole d,
    0 <= d <= 9
    /\ String.length (digits d) = 1%nat
    /\ format_1f v = whole +:+ "." +:+ digits d.
Proof.
  unfold format_1f.
  set (r := round_half_even (Z.abs (Qnum v) * 10) (Z.pos (Qden v))).
  assert (Hd : 0 <= r mod 10 <= 9) by (pose proof (Z.mod_pos_bound r 10); lia).
  eexists (_ +:+ digits (r / 10)), (r mod 10).
  split; [exact Hd|]. split; [by apply digit_length|].
  by rewrite append_assoc.
Qed.

Lemma round_half_even_ge a b : a / b <= round_half_even a b.
Proof.
  unfold round_half_even.
  destruct (2 * (a mod b) <? b); [lia|].
  destruct (b <? 2 * (a mod b)); [lia|].
  destruct (Z.even (a / b)); lia.
Qed.

(** The conversion of an integer to a float keeps its side of 1024. *)
Lemma float_of_int_ge_1024 n v :
  float_of_int n = Ok v -> Qle_bool 1024 v = (1024 <=? n).
Proof.
  unfold float_of_int.
  destruct (Z.abs n <? 2 ^ 53) eqn:Hsmall.
  - intros [= <-]. unfold Qle_bool, inject_Z. cbn [Qnum Qden].
    by rewrite !Z.mul_1_r.
  - set (a := Z.abs n). set (e := Z.log2 a - 52).
    set (m := round_half_even a (2 ^ e) * 2 ^ e).
    destruct (m <? 2 ^ 1024); [|discriminate].
    intros [= <-]. unfold Qle_bool, inject_Z. cbn [Qnum Qden].
    rewrite !Z.mul_1_r.
    apply Z.ltb_ge in Hsmall. fold a in Hsmall.
    change (2 ^ 53) with 9007199254740992 in Hsmall.
    assert (Hlog : 53 <= Z.log2 a).
    { change 53 with (Z.log2 (2 ^ 53)). apply Z.log2_le_mono.
      change (2 ^ 53) with 9007199254740992. exact Hsmall. }
    assert (He : 0 <= e) by (unfold e; lia).
    assert (Hpow : 2 ^ 52 * 2 ^ e <= a).
    { rewrite <- Z.pow_add_r by lia. replace (52 + e) with (Z.log2 a) by (unfold e; lia).
      apply Z.log2_spec. lia. }
    assert (HE : 0 < 2 ^ e) by (apply Z.pow_pos_nonneg; lia).
    assert (Hq : 2 ^ 52 <= a / 2 ^ e).
    { apply Z.div_le_lower_bound; lia. }
    pose proof (round_half_even_ge a (2 ^ e)) as Hr.
    change (2 ^ 52) with 4503599627370496 in Hq.
    assert (Hm : 1024 <= m) by (unfold m; nia).
    destruct (Z.leb_spec 1024 n) as [Hn|Hn].
    + apply Z.leb_le. rewrite Z.sgn_pos by lia. lia.
    + apply Z.leb_gt. assert (n < 0) by lia.
      rewrite Z.sgn_neg by assumption. lia.
Qed.

Lemma divided_succ v k : divided v (S k) = divided (v / 1024)%Q k.
Proof. exact (Nat.iter_succ_r k (fun x => (x / 1024)%Q) v). Qed.

(** The loop on a float: it divides [k] times, as long as the value is at
    least 1024 and a turn remains. *)
Lemma scale_float remaining v i :
  exists k,
    (k <= remaining)%nat
    /\ scale remaining (PyFloat v) i = Ok (PyFloat (divided v k), (i + k)%nat)
    /\ (forall j, (j < k)%nat -> (1024 <= divided v j)%Q)
    /\ ((k < remaining)%nat -> (divided v k < 1024)%Q).
Proof.
  revert v i. induction remaining as [|remaining IH]; intros v i.
  - exists 0%nat. rewrite Nat.add_0_r. repeat split; [lia | lia | lia].
  - simpl. destruct (Qle_bool 1024 v) eqn:E.
    + destruct (IH (v / 1024)%Q (S i)) as [k [Hk [Hs [Hge Hlt]]]].
      exists (S k). rewrite divided_succ, Nat.add_succ_r.
      split; [lia|]. split; [exact Hs|]. split.
      * intros [|j] Hj; [by apply Qle_bool_iff|].
        rewrite divided_succ. apply Hge. lia.
      * intros Hr. apply Hlt. lia.
    + exists 0%nat. rewrite Nat.add_0_r.
      split; [lia|]. split; [reflexivity|]. split; [lia|].
      intros _. apply Qnot_le_lt. intros H%Qle_bool_iff. simpl in H. congruence.
Qed.

(** C9.  The size formatting maps 1572864 bytes to "1.5 MB" and 0 bytes to
    "0 B".  For a size [n] other than 0, with [v] the float of [n] (which is
    [n] itself below 2^53), it divides [v] by 1024 as long as the value is at
    least 1024 and a larger unit remains: [k] times, where every value before
    the [k]-th division is at least 1024 and the value reached is below 1024
    unless [k] is 4, the index of the last unit.  The result is that value,
    rendered with one decimal digit, a space, and the [k]-th name of
    B, KB, MB, GB, TB. *)
Theorem format_file_size_spec :
  format_file_size (PyInt 1572864) = Ok "1.5 MB"
  /\ format_file_size (PyInt 0) = Ok "0 B"
  /\ size_names = ["B"; "KB"; "MB"; "GB"; "TB"]
  /\ (forall n, Z.abs n < 2 ^ 53 -> float_of_int n = Ok (inject_Z n))
  /\ (forall n v,
        n <> 0 ->
        float_of_int n = Ok v ->
        exists k name,
          size_names !! k = Some name
          /\ (forall j, (j < k)%nat -> (1024 <= divided v j)%Q)
          /\ ((k < 4)%nat -> (divided v k < 1024)%Q)
          /\ format_file_size (PyInt n) =
               Ok (format_1f (divided v k) +:+ " " +:+ name)
          /\ exists whole d,
               0 <= d <= 9
               /\ String.length (digits d) = 1%nat
               /\ format_1f (divided v k) = whole +:+ "." +:+ digits d).
Proof.
  split; [reflexivity|]. split; [reflexivity|]. split; [reflexivity|].
  split.
  { intros n Hn. unfold float_of_int. apply Z.ltb_lt in Hn. by rewrite Hn. }
  intros n v Hn Hv.
  unfold format_file_size. simpl is_zero.
  apply Z.eqb_neq in Hn. rewrite Hn.
  change (length size_names - 1)%nat with 4%nat.
  pose proof (float_of_int_ge_1024 n v Hv) as Hside.
  change (scale 4 (PyInt n) 0)
    with (if 1024 <=? n
          then bind (float_of_int n) (fun x => scale 3 (PyFloat (x / 1024)) 1)
          else Ok (PyInt n, 0%nat)).
  destruct (1024 <=? n) eqn:Hbig.
  - rewrite Hv. cbn [bind].
    destruct (scale_float 3 (v / 1024)%Q 1) as [k [Hk [Hs [Hge Hlt]]]].
    rewrite Hs. cbn [bind to_float].
    assert (Hname : exists name, size_names !! (1 + k)%nat = Some name).
    { destruct k as [|[|[|[|k]]]]; [by eexists .. | lia]. }
    destruct Hname as [name Hname]. rewrite Hname.
    exists (S k), name. rewrite divided_succ.
    split; [exact Hname|]. split; [|split; [|split]].
    + intros [|j] Hj; [by apply Qle_bool_iff|].
      rewrite divided_succ. apply Hge. lia.
    + intros Hr. apply Hlt. lia.
    + reflexivity.
    + apply format_1f_shape.
  - cbn [bind to_float]. rewrite Hv. cbn [bind].
    exists 0%nat, "B". split; [reflexivity|]. split; [lia|]. split; [|split].
    + intros _. apply Qnot_le_lt. intros H%Qle_bool_iff. simpl in H. congruence.
    + reflexivity.
    + apply (format_1f_shape v).
Qed.

Lemma format_file_size_spec_1280 :
  exists k name,
    size_names !! k = Some name
    /\ (forall j, (j < k)%nat -> (1024 <= divided 1280 j)%Q)
    /\ ((k < 4)%nat -> (divided 1280 k < 1024)%Q)
    /\ format_file_size (PyInt 1280) =
         Ok (format_1f (divided 1280 k) +:+ " " +:+ name)
    /\ exists whole d,
         0 <= d <= 9
         /\ String.length (digits d) = 1%nat
         /\ format_1f (divided 1280 k) = whole +:+ "." +:+ digits d.
Proof.
  exact (proj2 (proj2 (proj2 (proj2 format_file_size_spec))) 1280 1280%Q
           ltac:(discriminate) eq_refl).
Defined.

(** * Further properties of the code *)

Import startup run facts.

(** ** Strings *)

Lemma lstrip_empty s : lstrip s = EmptyString <-> all_space s = true.
Proof.
  induction s as [|c s IH]; simpl; [done|].
  destruct (is_space c); simpl; [exact IH|].
  split; discriminate.
Qed.

Lemma lstrip_head s c r : lstrip s = String c r -> is_space c = false.
Proof.
  induction s as [|x s IH]; simpl; [discriminate|].
  destruct (is_space x) eqn:E; [exact IH|].
  by intros [= <- _].
Qed.

Lemma rstrip_head c s :
  is_space c = false -> exists r, rstrip (String c s) = String c r.
Proof.
  intros Hc. simpl. destruct (rstrip s); rewrite ?Hc; eauto.
Qed.

Lemma strip_empty s : strip s = EmptyString <-> all_space s = true.
Proof.
  rewrite <- lstrip_empty. unfold strip. split; [|by intros ->].
  destruct (lstrip s) as [|c r] eqn:E; [done|].
  destruct (rstrip_head c r (lstrip_head _ _ _ E)) as [r' ->]. discriminate.
Qed.

Lemma rstrip_idempotent s : rstrip (rstrip s) = rstrip s.
Proof.
  induction s as [|c s IH]; [reflexivity|].
  simpl. destruct (rstrip s) as [|d r] eqn:E.
  - destruct (is_space c) eqn:Hc; [reflexivity|]. simpl. by rewrite Hc.
  - change (rstrip (String c (String d r))) with
      (match rstrip (String d r) with
       | EmptyString => if is_space c then EmptyString else String c EmptyString
       | r' => String c r'
       end).
    by rewrite IH.
Qed.

(** What [strip] returns has no whitespace left to strip. *)
Lemma strip_idempotent s : strip (strip s) = strip s.
Proof.
  unfold strip. destruct (lstrip s) as [|c r] eqn:E; [reflexivity|].
  pose proof (lstrip_head _ _ _ E) as Hc.
  destruct (rstrip_head c r Hc) as [r' Hr]. rewrite Hr.
  cbn [lstrip]. rewrite Hc, <- Hr. apply rstrip_idempotent.
Qed.

Lemma split_lacks sep s : lacks sep s = true -> split sep s = [s].
Proof.
  induction s as [|c s IH]; [reflexivity|].
  simpl. intros [Hc Hs]%andb_true_iff. apply negb_true_iff in Hc.
  by rewrite Hc, (IH Hs).
Qed.

Lemma split_app sep x rest :
  lacks sep x = true ->
  split sep (x +:+ String sep rest) = x :: split sep rest.
Proof.
  induction x as [|c x IH]; intros Hx.
  - change (split sep (String sep rest) = EmptyString :: split sep rest).
    simpl. by rewrite Ascii.eqb_refl.
  - simpl in Hx. apply andb_true_iff in Hx as [Hc Hx]. apply negb_true_iff in Hc.
    change (split sep (String c (x +:+ String sep rest))
            = String c x :: split sep rest).
    simpl. by rewrite Hc, (IH Hx).
Qed.

(** Splitting at a separator undoes joining with it, for parts without the
    separator. *)
Lemma split_join sep parts :
  parts <> [] ->
  Forall (fun p => lacks sep p = true) parts ->
  split sep (join (String sep EmptyString) parts) = parts.
Proof.
  induction parts as [|p [|q parts] IH]; intros Hne Hall; [done| |].
  - simpl. apply split_lacks. by inversion Hall.
  - inversion Hall as [|? ? Hp Hrest]; subst.
    change (join (String sep EmptyString) (p :: q :: parts))
      with (p +:+ String sep (join (String sep EmptyString) (q :: parts))).
    rewrite (split_app _ _ _ Hp). f_equal. by apply IH.
Qed.

(** ** The settings *)

Lemma join_not_empty sep p parts :
  p <> EmptyString -> join sep (p :: parts) <> EmptyString.
Proof.
  intros Hp. destruct parts as [|q parts]; [exact Hp|].
  destruct p as [|c p]; [done|]. discriminate.
Qed.

Lemma allowed_ips_stripped config :
  Forall (fun ip => strip ip = ip) (get_allowed_ips_list config).
Proof.
  unfold get_allowed_ips_list. destruct (ALLOWED_IPS config) as [ips|]; [|constructor].
  destruct (is_set (Some ips)); [|constructor].
  apply Forall_forall. intros ip [raw [-> _]]%list_elem_of_fmap.
  apply strip_idempotent.
Qed.

(** The allow-list is the setting cut at its commas, each piece without the
    whitespace around it; so a setting that joins plain entries (not empty,
    no comma, no whitespace around) with commas gives these entries back, and
    whitespace around an entry of the setting never reaches the list. *)
Theorem allowed_ips_round_trip config raws :
  raws <> [] ->
  Forall (fun raw => lacks "," raw = true) raws ->
  join "," raws <> EmptyString ->
  ALLOWED_IPS config = Some (join "," raws) ->
  get_allowed_ips_list config = map strip raws
  /\ (Forall (fun raw => plain_entry raw = true) raws ->
      get_allowed_ips_list config = raws)
  /\ Forall (fun ip => strip ip = ip) (get_allowed_ips_list config).
Proof.
  intros Hne Hlacks Hjoin Hset.
  assert (Hlist : get_allowed_ips_list config = map strip raws).
  { unfold get_allowed_ips_list. rewrite Hset. simpl.
    apply String.eqb_neq in Hjoin. rewrite Hjoin. simpl.
    by rewrite (split_join "," raws Hne Hlacks). }
  split; [exact Hlist|]. split; [|apply allowed_ips_stripped].
  intros Hplain. rewrite Hlist. clear -Hplain.
  induction Hplain as [|raw raws Hraw _ IH]; [reflexivity|].
  simpl. rewrite IH. f_equal.
  unfold plain_entry in Hraw. apply andb_true_iff in Hraw as [_ Hraw].
  by apply String.eqb_eq.
Qed.

Lemma allowed_ips_round_trip_padded :
  get_allowed_ips_list samples.strict = map strip ["10.0.0.1"; " 10.0.0.2"]
  /\ (Forall (fun raw => plain_entry raw = true) ["10.0.0.1"; " 10.0.0.2"] ->
      get_allowed_ips_list samples.strict = ["10.0.0.1"; " 10.0.0.2"])
  /\ Forall (fun ip => strip ip = ip) (get_allowed_ips_list samples.strict).
Proof.
  exact (allowed_ips_round_trip samples.strict ["10.0.0.1"; " 10.0.0.2"]
           ltac:(discriminate)
           ltac:(repeat constructor)
           ltac:(discriminate)
           eq_refl).
Defined.

(** The list of CORS origins is never empty: the setting "*" gives the one
    origin "*", the empty setting gives the one empty origin, and every
    origin of the list has no whitespace around it. *)
Theorem cors_origins_list_shape cls :
  get_cors_origins_list cls <> []
  /\ Forall (fun origin => strip origin = origin) (get_cors_origins_list cls)
  /\ (CORS_ORIGINS cls = "*" -> get_cors_origins_list cls = ["*"])
  /\ (CORS_ORIGINS cls = EmptyString ->
      get_cors_origins_list cls = [EmptyString]).
Proof.
  unfold get_cors_origins_list. split; [|split; [|split]].
  - destruct (String.eqb _ _); [discriminate|].
    intros H%map_eq_nil. by apply split_not_nil in H.
  - destruct (String.eqb _ _); [by repeat constructor|].
    apply Forall_forall. intros o [raw [-> _]]%list_elem_of_fmap.
    apply strip_idempotent.
  - by intros ->.
  - by intros ->.
Qed.

(** The validation at start-up accepts a configuration exactly when both
    ports lie between 1 and 65535 and the request and generation timeouts are
    positive; the engine timeout and the rate-limit budget are not looked
    at. *)
Theorem validate_accepts cls rest :
  validate cls rest = true <->
  1 <= PORT cls <= 65535
  /\ 1 <= OLLAMA_PORT rest <= 65535
  /\ 0 < REQUEST_TIMEOUT rest
  /\ 0 < GENERATE_TIMEOUT rest.
Proof.
  unfold validate.
  destruct (Z.leb_spec 1 (PORT cls)), (Z.leb_spec (PORT cls) 65535),
    (Z.leb_spec 1 (OLLAMA_PORT rest)), (Z.leb_spec (OLLAMA_PORT rest) 65535),
    (Z.leb_spec (REQUEST_TIMEOUT rest) 0), (Z.leb_spec (GENERATE_TIMEOUT rest) 0);
    simpl; split; (discriminate || lia || (intros; reflexivity)).
Qed.

(** What [print_config] prints does not depend on the value of the API key,
    only on whether one is set. *)
Theorem print_config_hides_key cls rest key key' :
  is_set key = is_set key' ->
  print_config (with_api_key cls key) rest
  = print_config (with_api_key cls key') rest.
Proof. intros H. unfold print_config. simpl. by rewrite H. Qed.

Lemma print_config_hides_key_sample :
  print_config (with_api_key samples.open (Some "secret"))
    cases.rest_defaults
  = print_config (with_api_key samples.open (Some "another"))
      cases.rest_defaults.
Proof.
  exact (print_config_hides_key samples.open
           cases.rest_defaults
           (Some "secret") (Some "another") eq_refl).
Defined.

Example print_config_rule_length :
  option_map String.length
    (last (print_config samples.open
             cases.rest_defaults))
  = Some 35%nat.
Proof. reflexivity. Qed.

(** ** The rate limiter over time *)


Lemma evict_none now l :
  (forall t, head l = Some t -> (now - t <= 60)%Q) -> evict now l = l.
Proof.
  destruct l as [|t l]; [reflexivity|].
  intros H. simpl. specialize (H t eq_refl). apply expired_false in H.
  by rewrite H.
Qed.

Lemma evict_length now l : (length (evict now l) <= length l)%nat.
Proof.
  induction l as [|t l IH]; simpl; [lia|].
  destruct (expired now t); simpl; lia.
Qed.

Lemma allowed_ip_check_not_rate config request ts :
  ~ rate_denied (allowed_ip_check config request ts).
Proof.
  unfold allowed_ip_check, api_key_check. intros [r [Hr Hs]].
  repeat match type of Hr with
    | context [if ?b then _ else _] => destruct b
    end; try discriminate; injection Hr as <-; discriminate Hs.
Qed.



(** With rate limiting enabled and a budget of zero or less, every request
    to a path other than /health is denied by the rate limiter, whatever the
    record, the time and the credentials; nothing is appended. *)
Theorem rate_limit_locks_out config storage request now ts :
  path request <> "/health" ->
  RATE_LIMIT_ENABLED config = true ->
  RATE_LIMIT_PER_MINUTE config <= 0 ->
  rate_denied (security_middleware config storage request now ts).2
  /\ (security_middleware config storage request now ts).1 =
       <[remote_addr request :=
           evict now (default [] (storage !! remote_addr request))]> storage.
Proof.
  intros Hpath Hon Hbudget.
  rewrite (middleware_limited _ _ _ _ _ Hpath Hon). cbv zeta.
  assert (H : (RATE_LIMIT_PER_MINUTE config
               <=? Z.of_nat (length (evict now
                      (default [] (storage !! remote_addr request))))) = true)
    by (apply Z.leb_le; lia).
  rewrite H. split; [|reflexivity]. eexists. split; reflexivity.
Qed.

Lemma rate_limit_locks_out_sample :
  rate_denied (security_middleware cases.locked ∅ samples.stranger 170 171).2
  /\ (security_middleware cases.locked ∅ samples.stranger 170 171).1 =
       <[remote_addr samples.stranger :=
           evict 170 (default [] ((∅ : gmap (option string) (list Q))
                                  !! remote_addr samples.stranger))]> ∅.
Proof.
  exact (rate_limit_locks_out cases.locked ∅ samples.stranger 170 171
           ltac:(intros H; vm_compute in H; discriminate H) eq_refl
           ltac:(vm_compute; discriminate)).
Defined.

(** The middleware reads and writes the record of the client of the request
    only: the records of all other addresses stay as they are, no address is
    ever removed from the store, and the answer is the same from any two
    stores that agree on the record of the client. *)
Theorem rate_records_are_separate config storage request now ts :
  (forall ip, ip <> remote_addr request ->
              (security_middleware config storage request now ts).1 !! ip
              = storage !! ip)
  /\ dom storage ⊆ dom (security_middleware config storage request now ts).1
  /\ dom (security_middleware config storage request now ts).1
       ⊆ dom storage ∪ {[remote_addr request]}
  /\ (forall storage',
        storage' !! remote_addr request = storage !! remote_addr request ->
        (security_middleware config storage' request now ts).2
        = (security_middleware config storage request now ts).2).
Proof.
  unfold security_middleware.
  destruct (String.eqb (path request) "/health");
    [|destruct (RATE_LIMIT_ENABLED config)].
  1, 3: (split; [done|]; split; [done|]; split; [apply union_subseteq_l|done]).
  split; [|split; [|split]].
  - intros ip Hip. destruct (_ <=? _); simpl; by rewrite lookup_insert_ne.
  - destruct (_ <=? _); simpl; rewrite dom_insert_L; apply union_subseteq_r.
  - destruct (_ <=? _); simpl; rewrite dom_insert_L;
      by rewrite (comm_L (∪)).
  - intros storage' ->. by destruct (_ <=? _).
Qed.

(** With a budget of zero or more, records that hold at most as many
    timestamps as the budget stay so: the store never holds more than the
    budget for a client. *)
Theorem rate_records_stay_small config storage request now ts :
  0 <= RATE_LIMIT_PER_MINUTE config ->
  (forall ip record, storage !! ip = Some record ->
                     Z.of_nat (length record) <= RATE_LIMIT_PER_MINUTE config) ->
  forall ip record,
    (security_middleware config storage request now ts).1 !! ip = Some record ->
    Z.of_nat (length record) <= RATE_LIMIT_PER_MINUTE config.
Proof.
  intros Hbudget Hsmall ip record. unfold security_middleware.
  destruct (String.eqb (path request) "/health"); [apply Hsmall|].
  destruct (RATE_LIMIT_ENABLED config); [|apply Hsmall].
  pose proof (evict_length now (default [] (storage !! remote_addr request))) as He.
  assert (Hold : Z.of_nat (length (default [] (storage !! remote_addr request)))
                 <= RATE_LIMIT_PER_MINUTE config).
  { destruct (storage !! remote_addr request) eqn:E; [by eapply Hsmall | simpl; lia]. }
  destruct (Z.leb_spec (RATE_LIMIT_PER_MINUTE config)
              (Z.of_nat (length (evict now
                 (default [] (storage !! remote_addr request)))))); simpl;
    intros Hlook;
    (destruct (decide (remote_addr request = ip)) as [<-|Hne];
     [ rewrite lookup_insert_eq in Hlook; injection Hlook as <-
     | rewrite lookup_insert_ne in Hlook by assumption; by eapply Hsmall ]).
  - lia.
  - rewrite length_app. simpl. lia.
Qed.

Lemma store_is_small ip record :
  samples.store !! ip = Some record ->
  Z.of_nat (length record) <= RATE_LIMIT_PER_MINUTE samples.strict.
Proof.
  unfold samples.store. intros [_ <-]%lookup_singleton_Some. simpl. lia.
Qed.

Lemma rate_records_stay_small_sample :
  Z.of_nat (length [100%Q; 130%Q]) <= RATE_LIMIT_PER_MINUTE samples.strict.
Proof.
  exact (rate_records_stay_small samples.strict samples.store
           (samples.post "/list" "10.0.0.1" JNull) 150 151
           ltac:(vm_compute; discriminate) store_is_small
           (Some "10.0.0.1") [100%Q; 130%Q] eq_refl).
Defined.

Lemma serve_cons config storage a rest :
  (serve config storage (a :: rest)).2 =
    (security_middleware config storage (req a) (at_time a) (stamp a)).2
    :: (serve config
          (security_middleware config storage (req a) (at_time a) (stamp a)).1
          rest).2.
Proof.
  simpl. destruct (security_middleware _ _ _ _ _) as [storage' answer].
  simpl. by destruct (serve config storage' rest).
Qed.

(** Requests of one client whose times all lie within 60 seconds of each
    other and of the timestamps already in its record: handled one after the
    other, the rate limiter denies exactly those that come when the record
    plus the requests before them have reached the budget.  From an empty
    record and a budget B, the first B requests pass the rate limiter and
    every later one is denied. *)
Theorem burst_is_cut_at_budget config storage ip arrivals :
  RATE_LIMIT_ENABLED config = true ->
  Forall (fun a => remote_addr (req a) = ip /\ path (req a) <> "/health")
    arrivals ->
  (forall e t,
      e ∈ default [] (storage !! ip) ++ map at_time arrivals ->
      t ∈ map at_time arrivals -> (t - e <= 60)%Q) ->
  forall i answer,
    (serve config storage arrivals).2 !! i = Some answer ->
    (rate_denied answer <->
     RATE_LIMIT_PER_MINUTE config
     <= Z.of_nat (length (default [] (storage !! ip)) + i)).
Proof.
  intros Hon Hreqs. revert storage.
  induction Hreqs as [|a rest [Hip Hpath] _ IH]; intros storage Hwin i answer.
  { destruct i; discriminate. }
  rewrite serve_cons, (middleware_limited _ _ _ _ _ Hpath Hon), Hip. cbv zeta.
  set (record := default [] (storage !! ip)) in *.
  assert (Hkeep : evict (at_time a) record = record).
  { apply evict_none. intros t Ht. apply Hwin.
    - apply elem_of_app. left. destruct record; [discriminate|].
      injection Ht as ->. by left.
    - by left. }
  rewrite Hkeep.
  destruct (Z.leb_spec (RATE_LIMIT_PER_MINUTE config) (Z.of_nat (length record)))
    as [Hfull|Hroom]; cbn [fst snd].
  - destruct i as [|i]; simpl.
    + intros [= <-]. split; [lia|]. intros _. eexists. split; reflexivity.
    + intros Hans.
      assert (Hrec : default [] (<[ip := record]> storage !! ip) = record)
        by by rewrite lookup_insert_eq.
      pose proof (IH (<[ip := record]> storage)) as IH'.
      rewrite Hrec in IH'.
      assert (Hwin' : forall e t,
                 e ∈ record ++ map at_time rest ->
                 t ∈ map at_time rest -> (t - e <= 60)%Q).
      { intros e t He Ht. apply Hwin; [|by right].
        apply elem_of_app in He as [He|He]; apply elem_of_app; [by left|].
        right. by right. }
      rewrite (IH' Hwin' i answer Hans). lia.
  - destruct i as [|i]; simpl.
    + intros [= <-]. split; [|lia].
      intros H. by apply allowed_ip_check_not_rate in H.
    + intros Hans.
      assert (Hrec : default [] (<[ip := record ++ [at_time a]]> storage !! ip)
                     = record ++ [at_time a])
        by by rewrite lookup_insert_eq.
      pose proof (IH (<[ip := record ++ [at_time a]]> storage)) as IH'.
      rewrite Hrec in IH'.
      assert (Hwin' : forall e t,
                 e ∈ (record ++ [at_time a]) ++ map at_time rest ->
                 t ∈ map at_time rest -> (t - e <= 60)%Q).
      { intros e t He Ht. apply Hwin; [|by right].
        rewrite <- app_assoc in He.
        apply elem_of_app in He as [He|He]; apply elem_of_app; [by left|].
        by right. }
      rewrite (IH' Hwin' i answer Hans).
      rewrite length_app. simpl. lia.
Qed.

Lemma burst_within_a_minute e t :
  e ∈ default [] ((∅ : gmap (option string) (list Q)) !! Some "10.0.0.1")
      ++ map at_time cases.burst ->
  t ∈ map at_time cases.burst -> (t - e <= 60)%Q.
Proof.
  rewrite lookup_empty. simpl. intros He Ht.
  repeat (apply elem_of_cons in He as [->|He]);
    try (by apply elem_of_nil in He);
    repeat (apply elem_of_cons in Ht as [->|Ht]);
    try (by apply elem_of_nil in Ht); lra.
Qed.

Lemma burst_is_cut_at_budget_sample :
  rate_denied
    (Some (Response
             (create_error_response
                "Rate limit superato: massimo 2 richieste per minuto"
                "RATE_LIMIT_EXCEEDED" 120)
             429))
  <-> RATE_LIMIT_PER_MINUTE samples.strict
      <= Z.of_nat (length (default [] ((∅ : gmap (option string) (list Q))
                                        !! Some "10.0.0.1")) + 2).
Proof.
  exact (burst_is_cut_at_budget samples.strict ∅ (Some "10.0.0.1") cases.burst
           eq_refl
           ltac:(repeat constructor; intros H; discriminate H)
           burst_within_a_minute 2%nat _ eq_refl).
Defined.

Example burst_answers :
  map (option_map status_code) (serve samples.strict ∅ cases.burst).2
  = [None; None; Some 429].
Proof. reflexivity. Qed.

(** With no policy configured (rate limiting off, no allow-list, no API
    key), the middleware lets every request through and leaves the store as
    it is. *)
Theorem unconfigured_policies_allow config storage request now ts :
  RATE_LIMIT_ENABLED config = false ->
  is_set (ALLOWED_IPS config) = false ->
  is_set (API_KEY config) = false ->
  security_middleware config storage request now ts = (storage, None).
Proof.
  intros Hoff Hips Hkey. unfold security_middleware. rewrite Hoff.
  destruct (String.eqb (path request) "/health"); [reflexivity|].
  f_equal. unfold allowed_ip_check.
  apply is_set_false, allowed_ips_nil in Hips. rewrite Hips. simpl.
  unfold api_key_check. by rewrite Hkey.
Qed.

Lemma unconfigured_policies_allow_sample :
  security_middleware samples.open samples.store samples.stranger 170 171 =
    (samples.store, None).
Proof.
  exact (unconfigured_policies_allow samples.open samples.store
           samples.stranger 170 171 eq_refl eq_refl eq_refl).
Defined.

(** ** The model name *)

Lemma strip_length_positive s :
  (0 <? Z.of_nat (String.length (strip s))) = negb (all_space s).
Proof.
  destruct (all_space s) eqn:E.
  - apply strip_empty in E. by rewrite E.
  - destruct (strip s) eqn:Es; [|reflexivity].
    apply strip_empty in Es. congruence.
Qed.

(** The validator accepts exactly the strings that are not made of
    whitespace only (the empty string is) and hold none of the eight
    dangerous substrings. *)
Theorem validate_model_name_accepts v :
  validate_model_name v = true <->
  exists s,
    v = JStr s
    /\ all_space s = false
    /\ Forall (fun bad => contains bad s = false) dangerous_chars.
Proof.
  split.
  - intros Hv. destruct (validate_model_name_string _ Hv) as [s ->].
    exists s. split; [reflexivity|]. split.
    + unfold validate_model_name in Hv.
      destruct (negb (truthy (JStr s)) || negb true); [discriminate|].
      apply andb_true_iff in Hv as [Hlen _].
      rewrite strip_length_positive in Hlen. by apply negb_true_iff in Hlen.
    + apply Forall_forall. intros bad Hin.
      destruct (contains bad s) eqn:E; [|reflexivity].
      by rewrite (validate_model_name_dangerous s bad Hin E) in Hv.
  - intros [s [-> [Hspace Hbad]]]. unfold validate_model_name.
    assert (Hs : s <> EmptyString) by (intros ->; discriminate).
    apply String.eqb_neq in Hs. cbn [truthy]. rewrite Hs. cbn [negb orb].
    rewrite strip_length_positive, Hspace. cbn [negb andb].
    apply negb_true_iff. apply not_true_iff_false.
    intros [bad [Hin Hc]]%existsb_exists.
    rewrite Forall_forall in Hbad.
    apply list_elem_of_In in Hin. specialize (Hbad bad Hin). congruence.
Qed.

(** ** The payload decorator *)

Lemma missing_fields_object o fields :
  missing_fields fields (JObj o) =
    Ok (List.filter (fun field => match dict_lookup o field with
                                  | Some _ => false
                                  | None => true
                                  end) fields).
Proof.
  induction fields as [|f fields IH]; [reflexivity|].
  simpl. rewrite IH. simpl. by destruct (dict_lookup o f).
Qed.

(** On a body that is a JSON object with at least one key, the decorator
    runs the view when every required field is a key of the object, whatever
    its value; otherwise it answers with status 400 and a message that names
    exactly the required fields that are not keys, in the order in which they
    are required, and the view is not run. *)
Theorem payload_lists_missing_fields fields func request o :
  body request = Parsed (JObj o) ->
  o <> [] ->
  validate_json_payload fields func request =
    match List.filter (fun field => match dict_lookup o field with
                                    | Some _ => false
                                    | None => true
                                    end) fields with
    | [] => func request
    | missing =>
        Reply (Response
                 (JObj [("error",
                         JStr ("Campi mancanti: " +:+ join ", " missing))])
                 400)
    end.
Proof.
  intros Hb Ho. unfold validate_json_payload, is_json, get_json.
  rewrite Hb. simpl. destruct o as [|kv o]; [done|]. simpl.
  rewrite missing_fields_object. by destruct (List.filter _ fields).
Qed.

Lemma payload_lists_missing_fields_sample :
  validate_json_payload ["model"; "prompt"]
    (generate_response_body samples.open 1000)
    (samples.post "/generate" "10.0.0.1" (JObj [("stream", JBool true)])) =
    match List.filter (fun field =>
                         match dict_lookup [("stream", JBool true)] field with
                         | Some _ => false
                         | None => true
                         end) ["model"; "prompt"] with
    | [] => generate_response_body samples.open 1000
              (samples.post "/generate" "10.0.0.1" (JObj [("stream", JBool true)]))
    | missing =>
        Reply (Response
                 (JObj [("error",
                         JStr ("Campi mancanti: " +:+ join ", " missing))])
                 400)
    end.
Proof.
  exact (payload_lists_missing_fields ["model"; "prompt"]
           (generate_response_body samples.open 1000)
           (samples.post "/generate" "10.0.0.1" (JObj [("stream", JBool true)]))
           [("stream", JBool true)] eq_refl ltac:(discriminate)).
Defined.

Example missing_fields_message :
  validate_json_payload ["model"; "prompt"]
    (generate_response_body samples.open 1000)
    (samples.post "/generate" "10.0.0.1" (JObj [("stream", JBool true)])) =
    Reply (Response (JObj [("error", JStr "Campi mancanti: model, prompt")]) 400).
Proof. reflexivity. Qed.

(** The decorator answers with status 400, and does not run the view, when
    the content type is not JSON and when the body is a JSON value that
    counts as false: null, false, zero, the empty string, the empty list and
    the empty object, the last one also where no field is required. *)
Theorem payload_rejects_empty fields func request :
  (body request = NotJson ->
   validate_json_payload fields func request =
     Reply (Response
              (JObj [("error", JStr "Content-Type deve essere application/json")])
              400))
  /\ (forall data,
        body request = Parsed data ->
        data = JNull \/ data = JBool false \/ data = JInt 0
        \/ data = JStr EmptyString \/ data = JList [] \/ data = JObj [] ->
        validate_json_payload fields func request =
          Reply (Response
                   (JObj [("error", JStr "Payload JSON mancante o non valido")])
                   400)).
Proof.
  unfold validate_json_payload, is_json, get_json. split.
  - by intros ->.
  - intros data -> [->|[->|[->|[->|[->| ->]]]]]; reflexivity.
Qed.

Lemma missing_fields_list l fields :
  (forall field, field ∈ fields -> JStr field ∈ l) ->
  missing_fields fields (JList l) = Ok [].
Proof.
  induction fields as [|f fields IH]; intros Hall; [reflexivity|].
  simpl. rewrite IH by (intros g Hg; apply Hall; by right). simpl.
  assert (H : existsb (fun x => match x with
                                | JStr s => String.eqb s f
                                | _ => false
                                end) l = true).
  { apply existsb_exists. exists (JStr f). split.
    - apply list_elem_of_In, Hall. by left.
    - apply String.eqb_refl. }
  by rewrite H.
Qed.

Lemma missing_fields_string s fields :
  (forall field, field ∈ fields -> contains field s = true) ->
  missing_fields fields (JStr s) = Ok [].
Proof.
  induction fields as [|f fields IH]; intros Hall; [reflexivity|].
  simpl. rewrite IH by (intros g Hg; apply Hall; by right). simpl.
  by rewrite (Hall f) by by left.
Qed.

(** Past the decorator, a body that is no JSON object ends the view with the
    answer INTERNAL_ERROR. *)
Lemma view_not_object e r request data :
  accepts_model r = true ->
  body request = Parsed data ->
  truthy data = true ->
  missing_fields (required_fields r) data = Ok [] ->
  (forall o, data <> JObj o) ->
  exists resp,
    view e r request = Reply resp /\ is_error resp 500 "INTERNAL_ERROR".
Proof.
  intros Hr Hb Ht Hm Hshape.
  destruct r; try discriminate; simpl;
    unfold generate_response, chat, stop_model, pull_model, log_request_info;
    rewrite (payload_passed _ _ _ _ Hb Ht Hm);
    unfold generate_response_body, chat_body, stop_model_body, pull_model_body,
      get_json;
    rewrite Hb; simpl;
    (destruct data as [| | | | | |o]; [..|by destruct (Hshape o)]);
    simpl; eexists; (split; [reflexivity|]);
    (split; [reflexivity|]); eexists _, _; reflexivity.
Qed.

(** The membership test of the decorator also succeeds on a JSON list that
    holds the names of the required fields as elements, and on a JSON string
    in which these names occur.  Such a body passes the decorator, and each
    of the views generate, chat, stop and pull then answers with status 500
    and the code INTERNAL_ERROR, without any call. *)
Theorem body_naming_fields_fails_inside e r request :
  accepts_model r = true ->
  (forall l,
      body request = Parsed (JList l) ->
      (forall field, field ∈ required_fields r -> JStr field ∈ l) ->
      exists resp,
        view e r request = Reply resp /\ is_error resp 500 "INTERNAL_ERROR")
  /\ (forall s,
        body request = Parsed (JStr s) ->
        (forall field, field ∈ required_fields r -> contains field s = true) ->
        exists resp,
          view e r request = Reply resp /\ is_error resp 500 "INTERNAL_ERROR").
Proof.
  intros Hr. split.
  - intros l Hb Hall.
    apply (view_not_object e r request (JList l) Hr Hb); [| |discriminate].
    + destruct l; [|reflexivity].
      destruct r; try discriminate;
        (exfalso; eapply elem_of_nil, Hall; by left).
    + by apply missing_fields_list.
  - intros s Hb Hall.
    apply (view_not_object e r request (JStr s) Hr Hb); [| |discriminate].
    + destruct s; [|reflexivity].
      destruct r; try discriminate;
        (specialize (Hall "model" ltac:(by left)); discriminate Hall).
    + by apply missing_fields_string.
Qed.

Lemma body_naming_fields_fails_inside_stop :
  (forall l,
      body (samples.post "/stop" "10.0.0.1" (JList [JStr "model"]))
      = Parsed (JList l) ->
      (forall field, field ∈ required_fields Stop -> JStr field ∈ l) ->
      exists resp,
        view samples.here Stop
          (samples.post "/stop" "10.0.0.1" (JList [JStr "model"])) = Reply resp
        /\ is_error resp 500 "INTERNAL_ERROR")
  /\ (forall s,
        body (samples.post "/stop" "10.0.0.1" (JList [JStr "model"]))
        = Parsed (JStr s) ->
        (forall field, field ∈ required_fields Stop -> contains field s = true) ->
        exists resp,
          view samples.here Stop
            (samples.post "/stop" "10.0.0.1" (JList [JStr "model"])) = Reply resp
          /\ is_error resp 500 "INTERNAL_ERROR").
Proof.
  exact (body_naming_fields_fails_inside samples.here Stop
           (samples.post "/stop" "10.0.0.1" (JList [JStr "model"])) eq_refl).
Defined.

(** Two bodies make an exception escape from the decorated views generate,
    chat, stop and pull, so that no view answers: a body that does not parse
    as JSON (BadRequest), and a JSON number other than zero or the value
    true, on which the membership test raises TypeError. *)
Theorem scalar_body_escapes e r request :
  accepts_model r = true ->
  (body request = Malformed -> view e r request = Escapes BadRequest)
  /\ (forall data,
        body request = Parsed data ->
        (exists n, data = JInt n /\ n <> 0)
        \/ (exists q, data = JFloat q /\ ~ (q == 0)%Q)
        \/ data = JBool true ->
        exists msg, view e r request = Escapes (TypeError msg)).
Proof.
  intros Hr. split.
  - intros Hb. destruct r; try discriminate; simpl;
      unfold generate_response, chat, stop_model, pull_model, log_request_info,
        validate_json_payload, is_json, get_json; by rewrite Hb.
  - intros data Hb Hdata.
    assert (Ht : truthy data = true).
    { destruct Hdata as [[n [-> Hn]]|[[q [-> Hq]]| ->]]; simpl; [| |reflexivity].
      - apply negb_true_iff. by apply Z.eqb_neq.
      - apply negb_true_iff, not_true_iff_false. by intros H%Qeq_bool_iff. }
    destruct r; try discriminate; simpl;
      unfold generate_response, chat, stop_model, pull_model, log_request_info,
        validate_json_payload, is_json, get_json; rewrite Hb; simpl; rewrite Ht;
      simpl;
      destruct Hdata as [[n [-> Hn]]|[[q [-> Hq]]| ->]]; simpl; by eexists.
Qed.

Lemma scalar_body_escapes_pull :
  (body (samples.post "/pull" "10.0.0.1" (JInt 5)) = Malformed ->
   view samples.here Pull (samples.post "/pull" "10.0.0.1" (JInt 5))
   = Escapes BadRequest)
  /\ (forall data,
        body (samples.post "/pull" "10.0.0.1" (JInt 5)) = Parsed data ->
        (exists n, data = JInt n /\ n <> 0)
        \/ (exists q, data = JFloat q /\ ~ (q == 0)%Q)
        \/ data = JBool true ->
        exists msg,
          view samples.here Pull (samples.post "/pull" "10.0.0.1" (JInt 5))
          = Escapes (TypeError msg)).
Proof.
  exact (scalar_body_escapes samples.here Pull
           (samples.post "/pull" "10.0.0.1" (JInt 5)) eq_refl).
Defined.

(** ** The views and their calls *)

Lemma dict_lookup_set_eq d k v : dict_lookup (dict_set d k v) k = Some v.
Proof.
  induction d as [|[k' v'] d IH]; simpl.
  - by rewrite String.eqb_refl.
  - destruct (String.eqb k' k) eqn:E; simpl; rewrite E; [reflexivity | exact IH].
Qed.

Lemma dict_lookup_set_ne d k v k' :
  k' <> k -> dict_lookup (dict_set d k v) k' = dict_lookup d k'.
Proof.
  intros Hne. induction d as [|[k0 v0] d IH]; simpl.
  - apply String.eqb_neq in Hne. rewrite String.eqb_sym. by rewrite Hne.
  - destruct (String.eqb k0 k) eqn:E; simpl.
    + apply String.eqb_eq in E as ->.
      assert (H : String.eqb k k' = false)
        by (apply String.eqb_neq; congruence).
      by rewrite H.
    + by rewrite IH.
Qed.

Lemma carries_two o f g :
  is_Some (dict_lookup o f) -> is_Some (dict_lookup o g) -> carries o [f; g].
Proof.
  intros Hf Hg field Hin. apply list_elem_of_In in Hin.
  destruct Hin as [<-|[<-|[]]]; assumption.
Qed.

Lemma carries_one o f : is_Some (dict_lookup o f) -> carries o [f].
Proof.
  intros Hf field Hin. apply list_elem_of_In in Hin.
  destruct Hin as [<-|[]]; assumption.
Qed.

(** The action of the generate view on a body that is past all its tests. *)
Lemma generate_valid_action config ts request o name prompt opts :
  body request = Parsed (JObj o) ->
  dict_lookup o "model" = Some (JStr name) ->
  validate_model_name (JStr name) = true ->
  dict_lookup o "prompt" = Some prompt ->
  dict_get o "options" (JObj []) = JObj opts ->
  generate_response config ts request =
    CallEngine
      (ollama_generate name prompt (dict_get o "stream" (JBool false))
         (dict_set opts "timeout" (JInt (OLLAMA_TIMEOUT config))))
      (fun outcome =>
         match bind outcome (fun response => subscript response "response") with
         | Ok (response, text) =>
             success_200
               (JObj ([("model", JStr name);
                       ("response", text);
                       ("done", dict_get response "done" (JBool true));
                       ("context", dict_get response "context" JNull)]
                      ++ counters response))
               "Testo generato con successo" ts
         | Raise e => engine_failure "la generazione" ts e
         end).
Proof.
  intros Hb Hmodel Hvalid Hprompt Hopts.
  unfold generate_response, log_request_info.
  rewrite (payload_accepted _ _ _ o Hb) by
    (try apply carries_two; by eexists).
  unfold generate_response_body, get_json. rewrite Hb.
  cbn [bind as_dict try_except].
  rewrite (dict_get_lookup _ _ _ _ Hmodel), (dict_get_lookup _ _ _ _ Hprompt).
  rewrite Hvalid, Hopts. reflexivity.
Qed.

(** A generate request past all tests makes one call of the engine: with the
    model name as it was sent, the prompt and the stream flag of the body
    (false when absent), and the options of the body in which the timeout is
    the configured one, whatever timeout the body asked for; every other
    option is handed on unchanged. *)
Theorem generate_calls_engine config ts request o name prompt opts :
  body request = Parsed (JObj o) ->
  dict_lookup o "model" = Some (JStr name) ->
  validate_model_name (JStr name) = true ->
  dict_lookup o "prompt" = Some prompt ->
  dict_get o "options" (JObj []) = JObj opts ->
  exists options k,
    generate_response config ts request =
      CallEngine
        (ollama_generate name prompt (dict_get o "stream" (JBool false)) options)
        k
    /\ dict_lookup options "timeout" = Some (JInt (OLLAMA_TIMEOUT config))
    /\ forall key, key <> "timeout" ->
                   dict_lookup options key = dict_lookup opts key.
Proof.
  intros Hb Hmodel Hvalid Hprompt Hopts.
  eexists _, _. split.
  - by apply (generate_valid_action config ts request o name prompt opts).
  - split; [apply dict_lookup_set_eq|].
    intros key Hkey. by apply dict_lookup_set_ne.
Qed.

(** What the generate view makes of the outcome of its call: an error of
    the engine client becomes status 500 with the code OLLAMA_ERROR and the
    text of the error; any other exception, and a reply without the key
    response, becomes status 500 with the code INTERNAL_ERROR; a reply with
    the key response becomes a Success envelope with status 200 whose data
    carry the model name and that response. *)
Theorem generate_answers_from_outcome config ts request o name prompt opts :
  body request = Parsed (JObj o) ->
  dict_lookup o "model" = Some (JStr name) ->
  validate_model_name (JStr name) = true ->
  dict_lookup o "prompt" = Some prompt ->
  dict_get o "options" (JObj []) = JObj opts ->
  exists c k,
    generate_response config ts request = CallEngine c k
    /\ (forall msg,
          k (Raise (ResponseError msg)) =
            error_500 ("Errore del modello Ollama: " +:+ msg) "OLLAMA_ERROR" ts)
    /\ (forall e, (forall msg, e <> ResponseError msg) ->
                  is_error (k (Raise e)) 500 "INTERNAL_ERROR")
    /\ (forall reply, dict_lookup reply "response" = None ->
                      is_error (k (Ok (Value (JObj reply)))) 500 "INTERNAL_ERROR")
    /\ (forall reply text,
          dict_lookup reply "response" = Some text ->
          exists data,
            k (Ok (Value (JObj reply))) =
              success_200 (JObj data) "Testo generato con successo" ts
            /\ dict_lookup data "model" = Some (JStr name)
            /\ dict_lookup data "response" = Some text).
Proof.
  intros Hb Hmodel Hvalid Hprompt Hopts.
  eexists _, _. split.
  { by apply (generate_valid_action config ts request o name prompt opts). }
  cbn beta. split; [reflexivity|]. split; [|split].
  - intros e He. cbn [bind].
    destruct e; try (split; [reflexivity|]; eexists _, _; reflexivity).
    by destruct (He msg).
  - intros reply Hnone. cbn [bind subscript]. rewrite Hnone.
    split; [reflexivity|]. eexists _, _. reflexivity.
  - intros reply text Hsome. cbn [bind subscript]. rewrite Hsome.
    eexists. split; [reflexivity|]. split; reflexivity.
Qed.

Lemma generate_calls_engine_sample :
  exists options k,
    generate_response samples.open 1000
      (samples.post "/generate" "10.0.0.1" (JObj cases.generate_fields)) =
      CallEngine
        (ollama_generate "llama2" (JStr "hi")
           (dict_get cases.generate_fields "stream" (JBool false)) options)
        k
    /\ dict_lookup options "timeout" = Some (JInt (OLLAMA_TIMEOUT samples.open))
    /\ forall key, key <> "timeout" ->
                   dict_lookup options key
                   = dict_lookup [("timeout", JInt 1); ("temperature", JInt 0)] key.
Proof.
  exact (generate_calls_engine samples.open 1000
           (samples.post "/generate" "10.0.0.1" (JObj cases.generate_fields))
           cases.generate_fields "llama2" (JStr "hi")
           [("timeout", JInt 1); ("temperature", JInt 0)]
           eq_refl eq_refl eq_refl eq_refl eq_refl).
Defined.

Lemma generate_answers_from_outcome_sample :
  exists c k,
    generate_response samples.open 1000
      (samples.post "/generate" "10.0.0.1" (JObj cases.generate_fields))
    = CallEngine c k
    /\ (forall msg,
          k (Raise (ResponseError msg)) =
            error_500 ("Errore del modello Ollama: " +:+ msg) "OLLAMA_ERROR" 1000)
    /\ (forall e, (forall msg, e <> ResponseError msg) ->
                  is_error (k (Raise e)) 500 "INTERNAL_ERROR")
    /\ (forall reply, dict_lookup reply "response" = None ->
                      is_error (k (Ok (Value (JObj reply)))) 500 "INTERNAL_ERROR")
    /\ (forall reply text,
          dict_lookup reply "response" = Some text ->
          exists data,
            k (Ok (Value (JObj reply))) =
              success_200 (JObj data) "Testo generato con successo" 1000
            /\ dict_lookup data "model" = Some (JStr "llama2")
            /\ dict_lookup data "response" = Some text).
Proof.
  exact (generate_answers_from_outcome samples.open 1000
           (samples.post "/generate" "10.0.0.1" (JObj cases.generate_fields))
           cases.generate_fields "llama2" (JStr "hi")
           [("timeout", JInt 1); ("temperature", JInt 0)]
           eq_refl eq_refl eq_refl eq_refl eq_refl).
Defined.

(** Options that are present and are not a JSON object, null among them,
    end the generate and chat views with status 500 and the code
    INTERNAL_ERROR before any call, also when everything else in the body is
    in order. *)
Theorem options_must_be_object config ts request o name options :
  body request = Parsed (JObj o) ->
  dict_lookup o "model" = Some (JStr name) ->
  validate_model_name (JStr name) = true ->
  dict_lookup o "options" = Some options ->
  (forall opts, options <> JObj opts) ->
  (is_Some (dict_lookup o "prompt") ->
   exists resp,
     generate_response config ts request = Reply resp
     /\ is_error resp 500 "INTERNAL_ERROR")
  /\ (forall m ms,
        dict_lookup o "messages" = Some (JList (m :: ms)) ->
        exists resp,
          chat config ts request = Reply resp
          /\ is_error resp 500 "INTERNAL_ERROR").
Proof.
  intros Hb Hmodel Hvalid Hopts Hshape. split.
  - intros Hprompt. unfold generate_response, log_request_info.
    rewrite (payload_accepted _ _ _ o Hb) by
      (try apply carries_two; (assumption || by eexists)).
    unfold generate_response_body, get_json. rewrite Hb.
    cbn [bind as_dict try_except].
    rewrite (dict_get_lookup _ _ _ _ Hmodel), (dict_get_lookup _ _ _ _ Hopts).
    rewrite Hvalid.
    destruct options as [| | | | | |opts]; [..|by destruct (Hshape opts)];
      cbn; eexists; (split; [reflexivity|]);
      (split; [reflexivity|]); eexists _, _; reflexivity.
  - intros m ms Hmsgs. unfold chat, log_request_info.
    rewrite (payload_accepted _ _ _ o Hb) by
      (try apply carries_two; by eexists).
    unfold chat_body, get_json. rewrite Hb.
    cbn [bind as_dict try_except].
    rewrite (dict_get_lookup _ _ _ _ Hmodel), (dict_get_lookup _ _ _ _ Hopts),
      (dict_get_lookup _ _ _ _ Hmsgs).
    rewrite Hvalid.
    destruct options as [| | | | | |opts]; [..|by destruct (Hshape opts)];
      cbn; eexists; (split; [reflexivity|]);
      (split; [reflexivity|]); eexists _, _; reflexivity.
Qed.

Lemma options_must_be_object_null :
  (is_Some (dict_lookup cases.null_options_fields "prompt") ->
   exists resp,
     generate_response samples.open 1000
       (samples.post "/generate" "10.0.0.1" (JObj cases.null_options_fields))
     = Reply resp
     /\ is_error resp 500 "INTERNAL_ERROR")
  /\ (forall m ms,
        dict_lookup cases.null_options_fields "messages" = Some (JList (m :: ms)) ->
        exists resp,
          chat samples.open 1000
            (samples.post "/generate" "10.0.0.1" (JObj cases.null_options_fields))
          = Reply resp
          /\ is_error resp 500 "INTERNAL_ERROR").
Proof.
  exact (options_must_be_object samples.open 1000
           (samples.post "/generate" "10.0.0.1" (JObj cases.null_options_fields))
           cases.null_options_fields "llama2" JNull
           eq_refl eq_refl eq_refl eq_refl
           ltac:(intros opts H; discriminate H)).
Defined.



(** A stop request past all tests starts one process: the command ollama
    stop with the model name as its one further argument and a timeout of 30
    seconds.  Its output becomes a Success envelope with status 200; a
    non-zero exit becomes status 500 with the code OLLAMA_STOP_ERROR, a
    timeout status 500 with the code OLLAMA_STOP_TIMEOUT, and any other
    exception status 500 with the code INTERNAL_ERROR. *)
Theorem stop_runs_one_command ts request o name :
  body request = Parsed (JObj o) ->
  dict_lookup o "model" = Some (JStr name) ->
  validate_model_name (JStr name) = true ->
  exists k,
    stop_model ts request = RunProcess ["ollama"; "stop"; name] 30 k
    /\ (forall stdout,
          exists data,
            k (Ok stdout) =
              success_200 (JObj data)
                ("Modello " +:+ name +:+ " fermato con successo") ts
            /\ dict_lookup data "model" = Some (JStr name)
            /\ dict_lookup data "output" = Some (JStr stdout))
    /\ (forall msg,
          is_error (k (Raise (CalledProcessError msg))) 500 "OLLAMA_STOP_ERROR")
    /\ (forall msg,
          is_error (k (Raise (TimeoutExpired msg))) 500 "OLLAMA_STOP_TIMEOUT")
    /\ (forall e,
          (forall msg, e <> CalledProcessError msg) ->
          (forall msg, e <> TimeoutExpired msg) ->
          is_error (k (Raise e)) 500 "INTERNAL_ERROR").
Proof.
  intros Hb Hmodel Hvalid.
  unfold stop_model, log_request_info.
  rewrite (payload_accepted _ _ _ o Hb) by
    (try apply carries_one; by eexists).
  unfold stop_model_body, get_json. rewrite Hb.
  cbn [bind as_dict try_except].
  rewrite (dict_get_lookup _ _ _ _ Hmodel), Hvalid.
  eexists. split; [reflexivity|]. cbn beta.
  split; [|split; [|split]].
  - intros stdout. eexists. split; [reflexivity|]. split; reflexivity.
  - intros msg. split; [reflexivity|]. eexists _, _. reflexivity.
  - intros msg. split; [reflexivity|]. eexists _, _. reflexivity.
  - intros e Hc Ht.
    destruct e; try (split; [reflexivity|]; eexists _, _; reflexivity).
    + by destruct (Hc msg).
    + by destruct (Ht msg).
Qed.

Lemma stop_runs_one_command_sample :
  exists k,
    stop_model 1000 (samples.post "/stop" "10.0.0.1" (JObj cases.stop_fields))
    = RunProcess ["ollama"; "stop"; "llama2"] 30 k
    /\ (forall stdout,
          exists data,
            k (Ok stdout) =
              success_200 (JObj data)
                ("Modello " +:+ "llama2" +:+ " fermato con successo") 1000
            /\ dict_lookup data "model" = Some (JStr "llama2")
            /\ dict_lookup data "output" = Some (JStr stdout))
    /\ (forall msg,
          is_error (k (Raise (CalledProcessError msg))) 500 "OLLAMA_STOP_ERROR")
    /\ (forall msg,
          is_error (k (Raise (TimeoutExpired msg))) 500 "OLLAMA_STOP_TIMEOUT")
    /\ (forall e,
          (forall msg, e <> CalledProcessError msg) ->
          (forall msg, e <> TimeoutExpired msg) ->
          is_error (k (Raise e)) 500 "INTERNAL_ERROR").
Proof.
  exact (stop_runs_one_command 1000
           (samples.post "/stop" "10.0.0.1" (JObj cases.stop_fields))
           cases.stop_fields "llama2" eq_refl eq_refl eq_refl).
Defined.

(** A pull request past all tests makes one call of the engine with the
    model name and the configured timeout.  Whatever the call returns becomes
    a Success envelope with status 200 that reports the download as done; an
    error of the engine client becomes status 500 with the code
    OLLAMA_PULL_ERROR, any other exception status 500 with the code
    INTERNAL_ERROR. *)
Theorem pull_calls_engine config ts request o name :
  body request = Parsed (JObj o) ->
  dict_lookup o "model" = Some (JStr name) ->
  validate_model_name (JStr name) = true ->
  exists k,
    pull_model config ts request =
      CallEngine (ollama_pull name (OLLAMA_TIMEOUT config)) k
    /\ (forall value,
          exists data,
            k (Ok value) =
              success_200 (JObj data)
                ("Modello " +:+ name +:+ " scaricato con successo") ts
            /\ dict_lookup data "download_success" = Some (JBool true))
    /\ (forall msg,
          is_error (k (Raise (ResponseError msg))) 500 "OLLAMA_PULL_ERROR")
    /\ (forall e,
          (forall msg, e <> ResponseError msg) ->
          is_error (k (Raise e)) 500 "INTERNAL_ERROR").
Proof.
  intros Hb Hmodel Hvalid.
  unfold pull_model, log_request_info.
  rewrite (payload_accepted _ _ _ o Hb) by
    (try apply carries_one; by eexists).
  unfold pull_model_body, get_json. rewrite Hb.
  cbn [bind as_dict try_except].
  rewrite (dict_get_lookup _ _ _ _ Hmodel), Hvalid.
  eexists. split; [reflexivity|]. cbn beta.
  split; [|split].
  - intros value. eexists. split; [reflexivity|]. reflexivity.
  - intros msg. split; [reflexivity|]. eexists _, _. reflexivity.
  - intros e He.
    destruct e; try (split; [reflexivity|]; eexists _, _; reflexivity).
    by destruct (He msg).
Qed.

Lemma pull_calls_engine_sample :
  exists k,
    pull_model samples.open 1000
      (samples.post "/pull" "10.0.0.1" (JObj cases.stop_fields)) =
      CallEngine (ollama_pull "llama2" (OLLAMA_TIMEOUT samples.open)) k
    /\ (forall value,
          exists data,
            k (Ok value) =
              success_200 (JObj data)
                ("Modello " +:+ "llama2" +:+ " scaricato con successo") 1000
            /\ dict_lookup data "download_success" = Some (JBool true))
    /\ (forall msg,
          is_error (k (Raise (ResponseError msg))) 500 "OLLAMA_PULL_ERROR")
    /\ (forall e,
          (forall msg, e <> ResponseError msg) ->
          is_error (k (Raise e)) 500 "INTERNAL_ERROR").
Proof.
  exact (pull_calls_engine samples.open 1000
           (samples.post "/pull" "10.0.0.1" (JObj cases.stop_fields))
           cases.stop_fields "llama2" eq_refl eq_refl eq_refl).
Defined.

(** None of the views generate, chat, stop and pull ever calls the engine or
    starts a process with a model name that the validator refuses: whenever
    one of them makes a call, the body is a JSON object, its model is a
    string that passes the validator, and the call carries exactly that
    string; the process that stop starts is ollama stop with that string as
    one argument. *)
Theorem calls_carry_valid_model e r request :
  accepts_model r = true ->
  match view e r request with
  | CallEngine c _ =>
      exists o name,
        body request = Parsed (JObj o)
        /\ dict_lookup o "model" = Some (JStr name)
        /\ validate_model_name (JStr name) = true
        /\ called_model c = Some name
  | RunProcess argv timeout _ =>
      exists o name,
        body request = Parsed (JObj o)
        /\ dict_lookup o "model" = Some (JStr name)
        /\ validate_model_name (JStr name) = true
        /\ argv = ["ollama"; "stop"; name]
  | Reply _ | Escapes _ => True
  end.
Proof.
  intros Hr.
  destruct r; try discriminate;
    unfold view, generate_response, chat, stop_model, pull_model,
      log_request_info, validate_json_payload, is_json, get_json,
      generate_response_body, chat_body, stop_model_body, pull_model_body,
      try_except, get_json;
    destruct (body request) as [| |data]; cbn [negb bind]; try exact I;
    destruct (truthy data); cbn [negb]; try exact I;
    destruct (missing_fields _ data) as [[|field missing]|ex]; try exact I;
    destruct data as [| | | | | |o]; cbn [as_dict bind]; try exact I;
    (destruct (validate_model_name (dict_get o "model" JNull)) eqn:Hv;
     [|exact I]);
    destruct (validate_model_name_string _ Hv) as [name Hname];
    rewrite Hname in *;
    (assert (Hlook : dict_lookup o "model" = Some (JStr name))
       by (unfold dict_get in Hname;
           destruct (dict_lookup o "model"); [congruence|discriminate]));
    try (destruct (dict_get o "messages" JNull) as [| | | | |[|m ms]|];
         try exact I);
    try (destruct (dict_get o "options" (JObj [])); cbn [as_mapping bind];
         try exact I);
    by exists o, name.
Qed.

Lemma calls_carry_valid_model_stop :
  match view samples.here Stop
          (samples.post "/stop" "10.0.0.1" (JObj cases.stop_fields)) with
  | CallEngine c _ =>
      exists o name,
        body (samples.post "/stop" "10.0.0.1" (JObj cases.stop_fields))
        = Parsed (JObj o)
        /\ dict_lookup o "model" = Some (JStr name)
        /\ validate_model_name (JStr name) = true
        /\ called_model c = Some name
  | RunProcess argv timeout _ =>
      exists o name,
        body (samples.post "/stop" "10.0.0.1" (JObj cases.stop_fields))
        = Parsed (JObj o)
        /\ dict_lookup o "model" = Some (JStr name)
        /\ validate_model_name (JStr name) = true
        /\ argv = ["ollama"; "stop"; name]
  | Reply _ | Escapes _ => True
  end.
Proof.
  exact (calls_carry_valid_model samples.here Stop
           (samples.post "/stop" "10.0.0.1" (JObj cases.stop_fields)) eq_refl).
Defined.

(** ** The listing of the models *)

(** ** The listing of the models *)





Example catalogue_listing :
  option_map (map (fun out => match out with
                              | JObj fields => dict_lookup fields "size_formatted"
                              | _ => None
                              end))
    (match enrich_all cases.catalogue with Ok l => Some l | Raise _ => None end)
  = Some [Some (JStr "1.5 MB"); Some (JStr "0 B")].
Proof. reflexivity. Qed.

(** ** The table of running models *)

Lemma append_nil_r (s : string) : s +:+ EmptyString = s.
Proof.
  induction s as [|c s IH]; [reflexivity|].
  change (String c (s +:+ EmptyString) = String c s). by rewrite IH.
Qed.

Lemma word_cons w :
  word w = true ->
  exists c r, w = String c r /\ is_space c = false /\ no_space r = true.
Proof.
  unfold word. destruct w as [|c r]; [discriminate|].
  simpl. intros [Hc Hr]%andb_true_iff. apply negb_true_iff in Hc. eauto.
Qed.

Lemma split_ws_from_run cur w rest :
  no_space w = true ->
  split_ws_from cur (w +:+ rest)
  = split_ws_from (rev (list_ascii_of_string w) ++ cur) rest.
Proof.
  revert cur. induction w as [|c w IH]; intros cur Hw; [reflexivity|].
  simpl in Hw. apply andb_true_iff in Hw as [Hc Hw]. apply negb_true_iff in Hc.
  change (split_ws_from cur (String c (w +:+ rest))
          = split_ws_from (rev (c :: list_ascii_of_string w) ++ cur) rest).
  cbn [split_ws_from]. rewrite Hc, (IH _ Hw). simpl rev.
  by rewrite <- app_assoc.
Qed.

Lemma rev_chars_word w :
  word w = true ->
  exists c cs, rev (list_ascii_of_string w) = c :: cs.
Proof.
  intros [c [r [-> _]]]%word_cons. simpl.
  destruct (rev (list_ascii_of_string r)); simpl; eauto.
Qed.

Lemma string_of_rev_rev w :
  string_of_list_ascii (rev (rev (list_ascii_of_string w))) = w.
Proof. rewrite rev_involutive. apply string_of_list_ascii_of_string. Qed.

Lemma word_no_space w : word w = true -> no_space w = true.
Proof. unfold word. by intros [_ H]%andb_true_iff. Qed.

(** [split()] gives back the words that were joined by single spaces. *)
Lemma split_ws_join parts :
  Forall (fun w => word w = true) parts ->
  split_ws (join " " parts) = parts.
Proof.
  unfold split_ws.
  induction parts as [|p [|q parts] IH]; intros Hall; [reflexivity| |].
  - inversion Hall as [|? ? Hp _]; subst. cbn [join].
    rewrite <- (append_nil_r p) at 1.
    rewrite (split_ws_from_run [] p EmptyString (word_no_space _ Hp)).
    rewrite app_nil_r. cbn [split_ws_from].
    destruct (rev_chars_word p Hp) as [c [cs Hrev]].
    rewrite <- (string_of_rev_rev p) at 2. by rewrite Hrev.
  - inversion Hall as [|? ? Hp Hrest]; subst.
    change (join " " (p :: q :: parts))
      with (p +:+ String " " (join " " (q :: parts))).
    rewrite (split_ws_from_run [] p _ (word_no_space _ Hp)).
    rewrite app_nil_r. cbn [split_ws_from].
    change (is_space " ") with true. cbn iota.
    destruct (rev_chars_word p Hp) as [c [cs Hrev]].
    rewrite Hrev, <- Hrev, string_of_rev_rev. f_equal. by apply IH.
Qed.

Lemma rstrip_no_space w : no_space w = true -> rstrip w = w.
Proof.
  induction w as [|c w IH]; [reflexivity|].
  simpl. intros [Hc Hw]%andb_true_iff. apply negb_true_iff in Hc.
  rewrite (IH Hw). destruct w; [by rewrite Hc | reflexivity].
Qed.

Lemma rstrip_all_space t : all_space t = true -> rstrip t = EmptyString.
Proof.
  induction t as [|c t IH]; [reflexivity|].
  simpl. intros [Hc Ht]%andb_true_iff. by rewrite (IH Ht), Hc.
Qed.

Lemma rstrip_app_space a t :
  all_space t = true -> rstrip (a +:+ t) = rstrip a.
Proof.
  intros Ht. induction a as [|c a IH]; [by apply rstrip_all_space|].
  change (rstrip (String c (a +:+ t)) = rstrip (String c a)).
  cbn [rstrip]. by rewrite IH.
Qed.

Lemma rstrip_app_tight a b :
  rstrip b = b -> b <> EmptyString -> rstrip (a +:+ b) = a +:+ b.
Proof.
  intros Hb Hne. induction a as [|c a IH]; [exact Hb|].
  change (rstrip (String c (a +:+ b)) = String c (a +:+ b)).
  cbn [rstrip]. rewrite IH.
  destruct (a +:+ b) eqn:E; [|reflexivity].
  destruct a; [by destruct Hne | discriminate].
Qed.

Lemma join_cons sep p parts :
  join sep (p :: parts)
  = p +:+ match parts with [] => EmptyString | _ => sep +:+ join sep parts end.
Proof. destruct parts; [by rewrite append_nil_r | reflexivity]. Qed.

(** Joined parts that each end in a character that is not whitespace end
    in one. *)
Lemma join_tight sep parts :
  parts <> [] ->
  Forall (fun p => rstrip p = p /\ p <> EmptyString) parts ->
  rstrip (join sep parts) = join sep parts
  /\ join sep parts <> EmptyString.
Proof.
  induction parts as [|p [|q parts] IH]; intros Hne Hall; [done| |].
  - by inversion Hall.
  - inversion Hall as [|? ? [Hp Hpne] Hrest]; subst.
    destruct (IH ltac:(discriminate) Hrest) as [Ht Htne].
    change (join sep (p :: q :: parts))
      with (p +:+ sep +:+ join sep (q :: parts)).
    split.
    + apply rstrip_app_tight.
      * by apply rstrip_app_tight.
      * destruct sep; [exact Htne | discriminate].
    + destruct p; [done | discriminate].
Qed.

Lemma lstrip_head_kept p x :
  (exists c r, p = String c r /\ is_space c = false) ->
  lstrip (p +:+ x) = p +:+ x.
Proof.
  intros [c [r [-> Hc]]].
  change (lstrip (String c (r +:+ x)) = String c (r +:+ x)).
  simpl. by rewrite Hc.
Qed.

Lemma lacks_app c a b : lacks c (a +:+ b) = lacks c a && lacks c b.
Proof.
  induction a as [|x a IH]; [reflexivity|].
  change (lacks c (String x (a +:+ b)) = lacks c (String x a) && lacks c b).
  simpl. rewrite IH. by rewrite andb_assoc.
Qed.

Lemma no_space_lacks_newline w : no_space w = true -> lacks newline w = true.
Proof.
  induction w as [|c w IH]; [reflexivity|].
  simpl. intros [Hc Hw]%andb_true_iff. rewrite (IH Hw), andb_true_r.
  apply negb_true_iff. destruct (Ascii.eqb_spec c newline) as [->|]; [|reflexivity].
  discriminate Hc.
Qed.

Lemma row_lacks_newline row :
  Forall (fun w => word w = true) row -> lacks newline (join " " row) = true.
Proof.
  induction row as [|p [|q row] IH]; intros Hall; [reflexivity| |].
  - inversion Hall; subst. by apply no_space_lacks_newline, word_no_space.
  - inversion Hall as [|? ? Hp Hrest]; subst.
    change (join " " (p :: q :: row)) with (p +:+ " " +:+ join " " (q :: row)).
    rewrite !lacks_app, (IH Hrest), andb_true_r.
    rewrite (no_space_lacks_newline _ (word_no_space _ Hp)). reflexivity.
Qed.

(** The text of a row of words: it has no whitespace around it. *)
Lemma row_text_tight row :
  row <> [] -> Forall (fun w => word w = true) row ->
  rstrip (join " " row) = join " " row
  /\ join " " row <> EmptyString
  /\ exists c r, join " " row = String c r /\ is_space c = false.
Proof.
  intros Hne Hall.
  destruct (join_tight " " row Hne) as [Ht Htne].
  { eapply Forall_impl; [exact Hall|]. intros w Hw. split.
    - by apply rstrip_no_space, word_no_space.
    - destruct (word_cons w Hw) as [c [r [-> _]]]. discriminate. }
  split; [exact Ht|]. split; [exact Htne|].
  destruct row as [|p row]; [done|]. inversion Hall as [|? ? Hp _]; subst.
  destruct (word_cons p Hp) as [c [r [-> [Hc _]]]].
  rewrite join_cons. eexists c, _. split; [reflexivity | exact Hc].
Qed.

Lemma strip_tight s :
  rstrip s = s ->
  (exists c r, s = String c r /\ is_space c = false) ->
  strip s = s.
Proof.
  intros Hr [c [r [-> Hc]]]. unfold strip.
  cbn [lstrip]. rewrite Hc. exact Hr.
Qed.

Lemma strip_padded core trailing :
  rstrip core = core ->
  (exists c r, core = String c r /\ is_space c = false) ->
  all_space trailing = true ->
  strip (core +:+ trailing) = core.
Proof.
  intros Hr Hstart Ht. unfold strip.
  rewrite (lstrip_head_kept core trailing Hstart).
  by rewrite (rstrip_app_space _ _ Ht).
Qed.

Lemma table_text_tight rows :
  rows <> [] ->
  Forall (fun row => row <> [] /\ Forall (fun w => word w = true) row) rows ->
  rstrip (table_text rows) = table_text rows
  /\ table_text rows <> EmptyString
  /\ exists c r, table_text rows = String c r /\ is_space c = false.
Proof.
  intros Hne Hall. unfold table_text.
  destruct (join_tight (String newline EmptyString) (map (join " ") rows))
    as [Ht Htne].
  { by destruct rows. }
  { apply Forall_fmap. eapply Forall_impl; [exact Hall|].
    intros row [Hrow Hwords]. simpl.
    destruct (row_text_tight row Hrow Hwords) as [H1 [H2 _]]. by split. }
  split; [exact Ht|]. split; [exact Htne|].
  destruct rows as [|row rows]; [done|].
  inversion Hall as [|? ? [Hrow Hwords] _]; subst.
  destruct (row_text_tight row Hrow Hwords) as [_ [_ [c [r [Hline Hc]]]]].
  cbn [map]. rewrite join_cons, Hline. eexists c, _. split; [reflexivity | exact Hc].
Qed.

(** The parser of the output of [ollama ps] reads a table back: for an
    output that is a header row and further rows, each row its columns
    (words without whitespace, at least one) joined by single spaces, the
    rows joined by line feeds, with any whitespace after the last row, the
    processes reported are those of the rows with four columns or more, in
    order; their name, id, size and processor are the first four columns and
    their remaining time is the other columns joined by spaces.  The header
    row and every row with fewer than four columns are left out. *)
Theorem parse_processes_reads_table header rows trailing :
  header <> [] ->
  Forall (fun w => word w = true) header ->
  Forall (fun row => row <> [] /\ Forall (fun w => word w = true) row) rows ->
  all_space trailing = true ->
  parse_processes (table_text (header :: rows) +:+ trailing)
  = map process_of_row (filter (fun row => (4 <= length row)%nat) rows).
Proof.
  intros Hheader Hwords Hrows Hspace.
  assert (Hall : Forall (fun row => row <> [] /\ Forall (fun w => word w = true) row)
                   (header :: rows)) by (constructor; [by split | exact Hrows]).
  destruct (table_text_tight (header :: rows) ltac:(discriminate) Hall)
    as [Htight [Hne Hstart]].
  unfold parse_processes. cbv zeta.
  rewrite (strip_padded _ _ Htight Hstart Hspace).
  apply String.eqb_neq in Hne. rewrite Hne. cbn [negb].
  assert (Hsplit : split newline (table_text (header :: rows))
                   = map (join " ") (header :: rows)).
  { unfold table_text. apply split_join; [discriminate|].
    apply Forall_fmap. eapply Forall_impl; [exact Hall|].
    intros row [_ Hw]. simpl. by apply row_lacks_newline. }
  rewrite !Hsplit. clear Hsplit.
  assert (Htail : (if (1 <? length (map (join " ") (header :: rows)))%nat
                   then drop 1 (map (join " ") (header :: rows)) else [])
                  = map (join " ") rows).
  { cbn [map length drop]. destruct rows; reflexivity. }
  rewrite Htail. clear Htail Hall Htight Hne Hstart.
  induction Hrows as [|row rows [Hrow Hw] _ IH]; [reflexivity|].
  cbn [map flat_map]. rewrite IH.
  destruct (row_text_tight row Hrow Hw) as [Ht [Htne Hs]].
  rewrite (strip_tight _ Ht Hs).
  apply String.eqb_neq in Htne. rewrite Htne. cbn [negb].
  rewrite (split_ws_join row Hw).
  rewrite filter_cons.
  destruct (Nat.leb_spec 4 (length row)) as [Hlong|Hshort].
  - rewrite decide_True by exact Hlong. cbn [app map]. f_equal.
    unfold process_of_row. do 5 f_equal.
    destruct (Nat.ltb_spec 4 (length row)) as [|Hfour]; [reflexivity|].
    by rewrite drop_ge by lia.
  - rewrite decide_False by lia. reflexivity.
Qed.

Lemma parse_processes_reads_table_sample :
  parse_processes
    (table_text (["NAME"; "ID"; "SIZE"; "PROCESSOR"; "UNTIL"]
                 :: [["llama2:latest"; "78e26419b446"; "5.1GB"; "100%GPU";
                      "4"; "minutes"; "from"; "now"];
                     ["loading"]])
     +:+ String newline EmptyString)
  = map process_of_row
      (filter (fun row => (4 <= length row)%nat)
         [["llama2:latest"; "78e26419b446"; "5.1GB"; "100%GPU";
           "4"; "minutes"; "from"; "now"];
          ["loading"]]).
Proof.
  exact (parse_processes_reads_table
           ["NAME"; "ID"; "SIZE"; "PROCESSOR"; "UNTIL"]
           [["llama2:latest"; "78e26419b446"; "5.1GB"; "100%GPU";
             "4"; "minutes"; "from"; "now"];
            ["loading"]]
           (String newline EmptyString)
           ltac:(discriminate)
           ltac:(repeat constructor)
           ltac:(repeat constructor; discriminate)
           eq_refl).
Defined.

(** An output of [ollama ps] with at most one line, once the whitespace
    around it is removed, reports no process: the first line is always taken
    for the header. *)
Theorem parse_processes_skips_first_line stdout :
  lacks newline (strip stdout) = true -> parse_processes stdout = [].
Proof.
  intros Hone. unfold parse_processes. cbv zeta.
  destruct (String.eqb (strip stdout) EmptyString); [reflexivity|].
  cbn [negb]. by rewrite (split_lacks _ _ Hone).
Qed.

Lemma parse_processes_skips_first_line_sample :
  parse_processes "llama2:latest 78e26419b446 5.1GB 100%GPU forever" = [].
Proof.
  exact (parse_processes_skips_first_line
           "llama2:latest 78e26419b446 5.1GB 100%GPU forever" eq_refl).
Defined.

(** The ps view runs the command ollama ps with a timeout of 10 seconds,
    whatever the request.  Its output becomes a Success envelope with status
    200 that holds the output as it came, the processes read from it and
    their number; a non-zero exit becomes status 500 with the code
    OLLAMA_PS_ERROR, a timeout status 500 with the code OLLAMA_PS_TIMEOUT,
    and any other exception status 500 with the code INTERNAL_ERROR. *)
Theorem process_status_runs_one_command ts request :
  exists k,
    process_status ts request = RunProcess ["ollama"; "ps"] 10 k
    /\ (forall stdout,
          k (Ok stdout) =
            success_200
              (JObj [("raw_output", JStr stdout);
                     ("processes", JList (parse_processes stdout));
                     ("total_processes",
                      JInt (Z.of_nat (length (parse_processes stdout))))])
              "Status processi ottenuto con successo" ts)
    /\ (forall msg,
          is_error (k (Raise (CalledProcessError msg))) 500 "OLLAMA_PS_ERROR")
    /\ (forall msg,
          is_error (k (Raise (TimeoutExpired msg))) 500 "OLLAMA_PS_TIMEOUT")
    /\ (forall e,
          (forall msg, e <> CalledProcessError msg) ->
          (forall msg, e <> TimeoutExpired msg) ->
          is_error (k (Raise e)) 500 "INTERNAL_ERROR").
Proof.
  eexists. split; [reflexivity|]. cbn beta.
  split; [reflexivity|]. split; [|split].
  - intros msg. split; [reflexivity|]. eexists _, _. reflexivity.
  - intros msg. split; [reflexivity|]. eexists _, _. reflexivity.
  - intros e Hc Ht.
    destruct e; try (split; [reflexivity|]; eexists _, _; reflexivity).
    + by destruct (Hc msg).
    + by destruct (Ht msg).
Qed.

(** ** The health view *)

(** The health view always answers at once with status 200 and the status
    "ok": it reports the engine as online or offline as the probe found it,
    it does not read the request, and its answer depends on the API key only
    through the fact that one is set. *)
Theorem health_check_never_fails config local_ip status request :
  exists o,
    health_check config local_ip status request = Reply (Response (JObj o) 200)
    /\ dict_lookup o "status" = Some (JStr "ok")
    /\ dict_lookup o "ollama_status"
       = Some (JStr (if status then "online" else "offline"))
    /\ (forall request',
          health_check config local_ip status request'
          = health_check config local_ip status request)
    /\ (forall key key',
          is_set key = is_set key' ->
          health_check (with_api_key config key) local_ip status request
          = health_check (with_api_key config key') local_ip status request).
Proof.
  eexists. split; [reflexivity|]. split; [reflexivity|]. split; [reflexivity|].
  split; [reflexivity|].
  intros key key' Hkey.
  unfold health_check, log_request_info, health_check_body. simpl.
  by rewrite Hkey.
Qed.

(** ** The records over a run *)

Lemma evict_subset now l t : t ∈ evict now l -> t ∈ l.
Proof.
  induction l as [|a l IH]; simpl; [done|].
  destruct (expired now a); [|done]. intros H. right. by apply IH.
Qed.

Lemma last_bounded (l : list Q) bound t :
  Forall (fun x => (x <= bound)%Q) l -> last l = Some t -> (t <= bound)%Q.
Proof.
  intros Hall Hlast. rewrite Forall_forall in Hall. apply Hall.
  apply last_Some in Hlast as [l' ->]. apply elem_of_app. right. by left.
Qed.

(** One call of the middleware keeps the records non-decreasing and below
    the current time, when the clock has not gone back. *)
Lemma step_keeps_sorted config storage request before now ts :
  (before <= now)%Q ->
  (forall ip record,
      storage !! ip = Some record ->
      nondecreasing record = true
      /\ Forall (fun t => (t <= before)%Q) record) ->
  forall ip record,
    (security_middleware config storage request now ts).1 !! ip = Some record ->
    nondecreasing record = true /\ Forall (fun t => (t <= now)%Q) record.
Proof.
  intros Hclock Hinv.
  assert (Hold : forall ip record,
             storage !! ip = Some record ->
             nondecreasing record = true
             /\ Forall (fun t => (t <= now)%Q) record).
  { intros ip record Hlook. destruct (Hinv ip record Hlook) as [Hs Hb].
    split; [exact Hs|]. eapply Forall_impl; [exact Hb|].
    intros t Ht. simpl in Ht. lra. }
  assert (Hrec : nondecreasing (default [] (storage !! remote_addr request)) = true
                 /\ Forall (fun t => (t <= now)%Q)
                      (default [] (storage !! remote_addr request))).
  { destruct (storage !! remote_addr request) eqn:E; [by eapply Hold|].
    split; [reflexivity | constructor]. }
  destruct Hrec as [Hsorted Hbound].
  assert (Hkept : Forall (fun t => (t <= now)%Q)
                    (evict now (default [] (storage !! remote_addr request)))).
  { apply Forall_forall. intros t Ht%evict_subset.
    rewrite Forall_forall in Hbound. by apply Hbound. }
  intros ip record. unfold security_middleware.
  destruct (String.eqb (path request) "/health"); [apply Hold|].
  destruct (RATE_LIMIT_ENABLED config); [|apply Hold].
  destruct (_ <=? _); simpl; intros Hlook;
    (destruct (decide (remote_addr request = ip)) as [<-|Hne];
     [ rewrite lookup_insert_eq in Hlook; injection Hlook as <-
     | rewrite lookup_insert_ne in Hlook by assumption; by eapply Hold ]).
  - split; [by apply evict_nondecreasing | exact Hkept].
  - split.
    + apply nondecreasing_snoc; [by apply evict_nondecreasing|].
      intros t Ht. by apply (last_bounded _ _ _ Hkept).
    + apply Forall_app. split; [exact Hkept|].
      constructor; [lra | constructor].
Qed.

Lemma serve_cons_store config storage a rest :
  (serve config storage (a :: rest)).1 =
    (serve config
       (security_middleware config storage (req a) (at_time a) (stamp a)).1
       rest).1.
Proof.
  simpl. destruct (security_middleware _ _ _ _ _) as [storage' answer].
  simpl. by destruct (serve config storage' rest).
Qed.

(** Over any run of requests, of any clients and paths, whose clock
    readings never go back and start at or after every timestamp of the
    store: if the records of the store are non-decreasing at the start, they
    are non-decreasing at the end. *)
Theorem serve_keeps_records_sorted config storage arrivals start :
  (forall ip record,
      storage !! ip = Some record ->
      nondecreasing record = true
      /\ Forall (fun t => (t <= start)%Q) record) ->
  nondecreasing (start :: map at_time arrivals) = true ->
  forall ip record,
    (serve config storage arrivals).1 !! ip = Some record ->
    nondecreasing record = true.
Proof.
  revert storage start.
  induction arrivals as [|a rest IH]; intros storage start Hinv Hclock ip record.
  - intros Hlook. by destruct (Hinv ip record Hlook).
  - rewrite serve_cons_store.
    cbn [map nondecreasing] in Hclock.
    apply andb_true_iff in Hclock as [Hfirst Hclock].
    apply Qle_bool_iff in Hfirst.
    apply (IH _ (at_time a)); [|exact Hclock].
    by apply (step_keeps_sorted config storage (req a) start).
Qed.

Lemma empty_store_sorted ip record :
  (∅ : gmap (option string) (list Q)) !! ip = Some record ->
  nondecreasing record = true /\ Forall (fun t => (t <= 100)%Q) record.
Proof. by rewrite lookup_empty. Qed.

Lemma serve_keeps_records_sorted_sample :
  nondecreasing [100%Q; 110%Q] = true.
Proof.
  exact (serve_keeps_records_sorted samples.strict ∅ cases.burst 100
           empty_store_sorted eq_refl (Some "10.0.0.1") [100%Q; 110%Q] eq_refl).
Defined.
